(** * A shallow embedding of the two UVM assemblers

    The repository holds two variants of one two-pass assembler:

    - [assembler.py]        (stage 1): a flat list of bytes, labels counted in
      instructions, every operand encoded in one byte;
    - [assembler-stage2.py] (stage 2): instruction records with an address,
      a per-mnemonic operand grammar, range checks.

    Both are embedded below, each in its own module ([Stage1], [Stage2]),
    on top of a small model of the Python string primitives they call
    (module [Py]).

    Modelling conventions.
    - A Python [str] is a Rocq [string].  The primitives of [Py] implement
      the behaviour of CPython on ASCII text ([Py.isascii]); a byte above
      127 is kept as an ordinary character that is neither a space, a
      digit, a letter nor an identifier character, which is not what
      CPython does with the character it belongs to.  The statements that
      classify lines, names or tokens are therefore made for ASCII lines.
      The messages of the assemblers are written in Russian and are kept
      verbatim (as UTF-8 literals).
    - Python integers are [Z]; [&] is [Z.land], [>>] is [Z.shiftr].
      [int] follows the grammar of integer literals (sign, base prefix,
      single underscores between digits).  The interpreter's limit on the
      digits converted between [str] and [int] is modelled at its default
      of 4300: [int] refuses a longer decimal literal, and formatting an
      integer with more decimal digits raises [ValueError].
    - The [labels] dictionary is a [gmap string Z]; the two constant tables
      ([commands], [registers]) are association lists in source order.
    - An assembler object is a record; a method takes the object and returns
      the updated object (explicit state passing).
    - [continue], [return False] and the [try]/[except] of the second pass are
      modelled by an explicit outcome type per source line. *)

From Stdlib Require Import ZArith Lia Ascii String List Bool.
From stdpp Require Import base strings gmap pretty.
Import ListNotations.

Local Open Scope Z_scope.

(* ===================================================================== *)
(** * Python string primitives                                            *)
(* ===================================================================== *)

Module Py.

(** Exceptions that the assemblers can see.  The payload is [str(e)]. *)
Inductive exn : Type :=
| ValueError (msg : string)
| IndexError (msg : string).

Definition exn_text (e : exn) : string :=
  match e with
  | ValueError m => m
  | IndexError m => m
  end.

Definition code (c : ascii) : Z := Z.of_N (N_of_ascii c).

Definition chr (z : Z) : ascii := ascii_of_N (Z.to_N z).

(** [str.isspace] on one ASCII character: TAB, LF, VT, FF, CR, FS, GS, RS,
    US and the space.  A byte above 127 is not one, although the
    character it belongs to may be white space for CPython. *)
Definition isspace (c : ascii) : bool :=
  let n := code c in
  ((9 <=? n) && (n <=? 13)) || ((28 <=? n) && (n <=? 32)).

Definition is_lower (c : ascii) : bool :=
  let n := code c in (97 <=? n) && (n <=? 122).

Definition is_upper (c : ascii) : bool :=
  let n := code c in (65 <=? n) && (n <=? 90).

Definition is_digit (c : ascii) : bool :=
  let n := code c in (48 <=? n) && (n <=? 57).

Definition upper_char (c : ascii) : ascii :=
  if is_lower c then chr (code c - 32) else c.

(** [s.upper()] on ASCII text: the letters a to z are mapped, every other
    character, a byte above 127 included, is kept. *)
Fixpoint upper (s : string) : string :=
  match s with
  | EmptyString => EmptyString
  | String c r => String (upper_char c) (upper r)
  end.

Definition is_empty (s : string) : bool :=
  match s with
  | EmptyString => true
  | String _ _ => false
  end.

(** [c in s] for a one-character [c]. *)
Fixpoint contains (c : ascii) (s : string) : bool :=
  match s with
  | EmptyString => false
  | String d r => if Ascii.eqb c d then true else contains c r
  end.

(** [s[:s.index(c)]] when [c in s]; also [s.split(c)[0]] in every case:
    the text before the first occurrence of [c], all of [s] when there is
    none. *)
Fixpoint before (c : ascii) (s : string) : string :=
  match s with
  | EmptyString => EmptyString
  | String d r => if Ascii.eqb c d then EmptyString else String d (before c r)
  end.

(** [s.lstrip()] *)
Fixpoint lstrip (s : string) : string :=
  match s with
  | EmptyString => EmptyString
  | String c r => if isspace c then lstrip r else s
  end.

(** [s.rstrip()], and [s.rstrip(chars)] through the predicate [p]. *)
Fixpoint rstrip_by (p : ascii -> bool) (s : string) : string :=
  match s with
  | EmptyString => EmptyString
  | String c r =>
      let r' := rstrip_by p r in
      if p c && is_empty r' then EmptyString else String c r'
  end.

Definition rstrip (s : string) : string := rstrip_by isspace s.

(** [s.strip()] *)
Definition strip (s : string) : string := rstrip (lstrip s).

(** [s.rstrip(',')] *)
Definition rstrip_comma (s : string) : string :=
  rstrip_by (Ascii.eqb ","%char) s.

(** [s.replace(a, b)] for one-character [a] and [b]. *)
Fixpoint replace (a b : ascii) (s : string) : string :=
  match s with
  | EmptyString => EmptyString
  | String c r => String (if Ascii.eqb c a then b else c) (replace a b r)
  end.

(** [s.split()]: the maximal runs of non-space characters, in order.
    [cur] is the word being read. *)
Fixpoint split_from (cur : string) (s : string) : list string :=
  match s with
  | EmptyString => if is_empty cur then [] else [cur]
  | String c r =>
      if isspace c
      then (if is_empty cur then split_from EmptyString r
            else cur :: split_from EmptyString r)
      else split_from (cur +:+ String c EmptyString) r
  end.

Definition split (s : string) : list string := split_from EmptyString s.

(** [s.split(sep)] for a one-character separator: never empty. *)
Fixpoint split_on_from (sep : ascii) (cur : string) (s : string) : list string :=
  match s with
  | EmptyString => [cur]
  | String c r =>
      if Ascii.eqb c sep then cur :: split_on_from sep EmptyString r
      else split_on_from sep (cur +:+ String c EmptyString) r
  end.

Definition split_on (sep : ascii) (s : string) : list string :=
  split_on_from sep EmptyString s.

(** [s.startswith(p)] *)
Fixpoint startswith (p s : string) : bool :=
  match p, s with
  | EmptyString, _ => true
  | String a p', String b s' => Ascii.eqb a b && startswith p' s'
  | String _ _, EmptyString => false
  end.

(** [s.endswith(c)] for a one-character [c]. *)
Fixpoint endswith (c : ascii) (s : string) : bool :=
  match s with
  | EmptyString => false
  | String d EmptyString => Ascii.eqb c d
  | String _ r => endswith c r
  end.

(** [s[:-1]] *)
Fixpoint drop_last (s : string) : string :=
  match s with
  | EmptyString => EmptyString
  | String _ EmptyString => EmptyString
  | String c r => String c (drop_last r)
  end.

Definition is_ident_start (c : ascii) : bool :=
  is_lower c || is_upper c || Ascii.eqb c "_"%char.

Definition is_ident_char (c : ascii) : bool :=
  is_ident_start c || is_digit c.

Fixpoint forallb_str (p : ascii -> bool) (s : string) : bool :=
  match s with
  | EmptyString => true
  | String c r => p c && forallb_str p r
  end.

(** [s.isidentifier()] on ASCII text: a letter or an underscore, then
    letters, digits and underscores.  A name with a byte above 127 is
    refused, although CPython accepts the letters of other alphabets. *)
Definition isidentifier (s : string) : bool :=
  match s with
  | EmptyString => false
  | String c r => is_ident_start c && forallb_str is_ident_char r
  end.

(** [s.isdigit()] on ASCII text: the digits 0 to 9 only. *)
Definition isdigit (s : string) : bool :=
  negb (is_empty s) && forallb_str is_digit s.

(** [s.isascii()] *)
Definition isascii (s : string) : bool :=
  forallb_str (fun c => code c <? 128) s.

(** [x in xs] for a list of strings. *)
Fixpoint mem (x : string) (xs : list string) : bool :=
  match xs with
  | [] => false
  | y :: ys => String.eqb x y || mem x ys
  end.

(** Lookup in a constant dictionary written as an association list. *)
Fixpoint assoc {A : Type} (k : string) (d : list (string * A)) : option A :=
  match d with
  | [] => None
  | (k', v) :: d' => if String.eqb k k' then Some v else assoc k d'
  end.

(** [enumerate(xs, n)] *)
Fixpoint enumerate {A : Type} (n : nat) (xs : list A) : list (nat * A) :=
  match xs with
  | [] => []
  | x :: xs' => (n, x) :: enumerate (S n) xs'
  end.

Definition LF : ascii := chr 10.
Definition CR : ascii := chr 13.

(** [f.readlines()] on the contents of a text file opened with the default
    universal-newlines mode: a line ends at LF, CR LF or CR, and its
    terminator is read as one LF. *)
Fixpoint readlines_from (cur : string) (s : string) : list string :=
  match s with
  | EmptyString => if is_empty cur then [] else [cur]
  | String c r =>
      if Ascii.eqb c LF then
        (cur +:+ String LF EmptyString) :: readlines_from EmptyString r
      else if Ascii.eqb c CR then
        match r with
        | String d r' =>
            if Ascii.eqb d LF then
              (cur +:+ String LF EmptyString) :: readlines_from EmptyString r'
            else (cur +:+ String LF EmptyString) :: readlines_from EmptyString r
        | EmptyString => [cur +:+ String LF EmptyString]
        end
      else readlines_from (cur +:+ String c EmptyString) r
  end.

Definition readlines (s : string) : list string := readlines_from EmptyString s.

(** [sep.join(xs)] *)
Fixpoint join (sep : string) (xs : list string) : string :=
  match xs with
  | [] => EmptyString
  | [x] => x
  | x :: rest => x +:+ sep +:+ join sep rest
  end.

(** ** [repr] of a string (used by the message of [ValueError]) *)

Definition hex_digit (z : Z) : ascii :=
  if z <? 10 then chr (48 + z) else chr (87 + z).

Definition squote : ascii := chr 39.
Definition dquote : ascii := chr 34.
Definition backslash : ascii := chr 92.

Definition repr_char (quote c : ascii) (k : string) : string :=
  let n := code c in
  if Ascii.eqb c quote || Ascii.eqb c backslash then String backslash (String c k)
  else if n =? 9 then String backslash (String "t"%char k)
  else if n =? 10 then String backslash (String "n"%char k)
  else if n =? 13 then String backslash (String "r"%char k)
  else if (n <? 32) || (n =? 127) then
    String backslash (String "x"%char
      (String (hex_digit (n / 16)) (String (hex_digit (n mod 16)) k)))
  else String c k.

Fixpoint repr_body (quote : ascii) (s : string) : string :=
  match s with
  | EmptyString => String quote EmptyString
  | String c r => repr_char quote c (repr_body quote r)
  end.

Definition repr (s : string) : string :=
  let quote :=
    if contains squote s && negb (contains dquote s) then dquote else squote in
  String quote (repr_body quote s).

(** ** [int(s)], [int(s, 16)] and [int(s, 0)] *)

(** The white space [int] skips around a literal: that of C's [isspace]
    (the separators 28 to 31, white space for [str.strip], are not). *)
Definition is_c_space (c : ascii) : bool :=
  let n := code c in ((9 <=? n) && (n <=? 13)) || (n =? 32).

Fixpoint lstrip_by (p : ascii -> bool) (s : string) : string :=
  match s with
  | EmptyString => EmptyString
  | String c r => if p c then lstrip_by p r else s
  end.

(** The first [n] characters of [s] (the precision of a format field). *)
Fixpoint truncate (n : nat) (s : string) : string :=
  match n, s with
  | S n', String c r => String c (truncate n' r)
  | _, _ => EmptyString
  end.

(** The default of [sys.get_int_max_str_digits()]: no more digits than
    this are converted between [str] and [int] in a base that is not a
    power of two. *)
Definition max_str_digits : Z := 4300.

(** [base & (base - 1) == 0] *)
Definition is_binary_base (base : Z) : bool := Z.land base (base - 1) =? 0.

(** What reading a literal gives: its value, a syntax error, or more
    digits than the limit allows. *)
Inductive literal_result : Type :=
| Value (z : Z)
| Invalid
| TooLong (ndigits : Z).

Definition digit_val (c : ascii) : option Z :=
  if is_digit c then Some (code c - 48)
  else if is_lower c then Some (code c - 87)
  else if is_upper c then Some (code c - 55)
  else None.

(** Digits of [base] separated by single underscores: how many there are
    and their value.  [prev_us] tells that the previous character was an
    underscore, [count] how many digits were read. *)
Fixpoint digits (base acc count : Z) (prev_us : bool) (s : string)
  : option (Z * Z) :=
  match s with
  | EmptyString => if prev_us || (count =? 0) then None else Some (count, acc)
  | String c r =>
      if Ascii.eqb c "_"%char then
        (if prev_us then None else digits base acc count true r)
      else
        match digit_val c with
        | Some d =>
            if d <? base then digits base (acc * base + d) (count + 1) false r
            else None
        | None => None
        end
  end.

(** The digits after an optional base prefix: one underscore may follow the
    prefix, the digits themselves may not start with one.  The text is
    validated first, then its digits are counted against the limit. *)
Definition after_prefix (base : Z) (skip_us : bool) (s : string)
  : literal_result :=
  let s1 :=
    match s with
    | String c r => if skip_us && Ascii.eqb c "_"%char then r else s
    | EmptyString => s
    end in
  match s1 with
  | String c _ =>
      if Ascii.eqb c "_"%char then Invalid
      else
        match digits base 0 0 false s1 with
        | Some (count, z) =>
            if negb (is_binary_base base) && (max_str_digits <? count)
            then TooLong count
            else Value z
        | None => Invalid
        end
  | EmptyString => Invalid
  end.

Definition has_prefix (x : ascii) (s : string) : bool :=
  match s with
  | String c0 (String c1 _) =>
      Ascii.eqb c0 "0"%char && Ascii.eqb (upper_char c1) x
  | _ => false
  end.

Definition drop2 (s : string) : string :=
  match s with
  | String _ (String _ r) => r
  | _ => EmptyString
  end.

(** The unsigned part of a literal. *)
Definition magnitude (base : Z) (s : string) : literal_result :=
  if base =? 0 then
    if has_prefix "X"%char s then after_prefix 16 true (drop2 s)
    else if has_prefix "O"%char s then after_prefix 8 true (drop2 s)
    else if has_prefix "B"%char s then after_prefix 2 true (drop2 s)
    else if startswith "0" s then
      match after_prefix 10 false s with
      | Value 0 => Value 0
      | Value _ => Invalid
      | other => other
      end
    else after_prefix 10 false s
  else if (base =? 16) && has_prefix "X"%char s then after_prefix 16 true (drop2 s)
  else after_prefix base false s.

Definition signed (base : Z) (s : string) : literal_result :=
  match s with
  | String c r =>
      if Ascii.eqb c "+"%char then magnitude base r
      else if Ascii.eqb c "-"%char then
        match magnitude base r with
        | Value z => Value (- z)
        | other => other
        end
      else magnitude base s
  | EmptyString => Invalid
  end.

(** [int(s, base)] for an ASCII string: the value, or the [ValueError]
    CPython raises.  The message of a syntax error shows [repr(s)] cut at
    200 characters.  (CPython also reads the decimal digits of other
    scripts, which are not modelled.) *)
Definition int (base : Z) (s : string) : Z + exn :=
  match signed base (rstrip_by is_c_space (lstrip_by is_c_space s)) with
  | Value z => inl z
  | Invalid =>
      inr (ValueError ("invalid literal for int() with base " +:+ pretty base
                       +:+ ": " +:+ truncate 200 (repr s)))
  | TooLong ndigits =>
      inr (ValueError ("Exceeds the limit (" +:+ pretty max_str_digits
                       +:+ " digits) for integer string conversion: value has "
                       +:+ pretty ndigits
                       +:+ " digits; use sys.set_int_max_str_digits() "
                       +:+ "to increase the limit"))
  end.

(** [str(z)], which is also what [f"{z}"] inserts: the decimal digits, or
    the [ValueError] CPython raises when there are more of them than the
    limit allows. *)
Definition str_limit_error : exn :=
  ValueError ("Exceeds the limit (" +:+ pretty max_str_digits
              +:+ " digits) for integer string conversion; "
              +:+ "use sys.set_int_max_str_digits() "
              +:+ "to increase the limit").

Definition str_int (z : Z) : string + exn :=
  if 10 ^ max_str_digits <=? Z.abs z then inr str_limit_error
  else inl (pretty z).

End Py.

(* ===================================================================== *)
(** * Stage 2: [assembler-stage2.py]                                      *)
(* ===================================================================== *)

Module Stage2.

(** [self.commands] *)
Definition commands : list (string * Z) :=
  [ ("LOAD", 0x01); ("STORE", 0x02); ("ADD", 0x03); ("SUB", 0x04);
    ("MUL", 0x05); ("DIV", 0x06); ("MOD", 0x07); ("JMP", 0x08);
    ("JZ", 0x09); ("JNZ", 0x0a); ("CMP", 0x0b); ("CALL", 0x0c);
    ("RET", 0x0d); ("PUSH", 0x0e); ("POP", 0x0f); ("HALT", 0x10) ].

(** [self.registers] *)
Definition registers : list (string * Z) :=
  [ ("A", 0x00); ("B", 0x01); ("C", 0x02); ("D", 0x03) ].

(** One entry of [self.instructions]. *)
Record Instruction : Type := mkInstruction {
  mnemonic : string;
  opcode : Z;
  operands : list Z;
  line : nat;
  address : Z
}.

(** The assembler object. *)
Record Assembler : Type := mkAssembler {
  instructions : list Instruction;
  labels : gmap string Z;
  errors : list string;
  source_lines : list string
}.

(** [__init__] *)
Definition init : Assembler := mkAssembler [] ∅ [] [].

Definition set_label (k : string) (v : Z) (st : Assembler) : Assembler :=
  mkAssembler (instructions st) (<[k := v]> (labels st)) (errors st)
              (source_lines st).

Definition add_error (msg : string) (st : Assembler) : Assembler :=
  mkAssembler (instructions st) (labels st) (errors st ++ [msg])
              (source_lines st).

Definition add_instruction (i : Instruction) (st : Assembler) : Assembler :=
  mkAssembler (instructions st ++ [i]) (labels st) (errors st)
              (source_lines st).

Definition set_source_lines (ls : list string) (st : Assembler) : Assembler :=
  mkAssembler (instructions st) (labels st) (errors st) ls.

(** [if ';' in line: line = line[:line.index(';')]] *)
Definition strip_comment (l : string) : string :=
  if Py.contains ";"%char l then Py.before ";"%char l else l.

(** The prefix [f"Строка {line_num}: "] of every diagnostic. *)
Definition at_line (line_num : nat) (msg : string) : string :=
  "Строка " +:+ pretty line_num +:+ ": " +:+ msg.

(** The number of bytes pass 1 charges for a recognised command. *)
Definition width (command : string) : Z :=
  if String.eqb command "HALT" || String.eqb command "RET" then 1
  else if Py.mem command ["PUSH"; "POP"] then 2
  else 3.

(** The body of the loop of [_first_pass]: the object and the local
    [address] before the line, and after it. *)
Definition first_pass_line (st : Assembler) (addr : Z) (l : string)
  : Assembler * Z :=
  let l := strip_comment l in
  let l := Py.strip l in
  if Py.is_empty l then (st, addr)
  else if Py.contains ":"%char l then
    let label_name := Py.strip (hd EmptyString (Py.split_on ":"%char l)) in
    (set_label label_name addr st, addr)
  else
    match Py.split l with
    | [] => (st, addr)
    | p0 :: _ =>
        let command := Py.upper p0 in
        match Py.assoc command commands with
        | Some _ => (st, addr + width command)
        | None => (st, addr)
        end
    end.

Fixpoint first_pass_from (st : Assembler) (addr : Z) (lines : list string)
  : Assembler * Z :=
  match lines with
  | [] => (st, addr)
  | l :: rest =>
      let '(st', addr') := first_pass_line st addr l in
      first_pass_from st' addr' rest
  end.

(** [_first_pass]: the object after the pass (the final address is local to
    the method and lost). *)
Definition _first_pass (st : Assembler) (lines : list string) : Assembler :=
  fst (first_pass_from st 0 lines).

(** What the operand parser of one line does. *)
Inductive outcome : Type :=
| Encoded (ops : list Z)     (* control reaches [self.instructions.append] *)
| Rejected (msg : string)    (* [self.errors.append(msg); continue] *)
| Raised (e : Py.exn).       (* an exception leaves the [try] body *)

(** [int(s, 16) if s.startswith('0x') else int(s)] *)
Definition literal (s : string) : Z + Py.exn :=
  if Py.startswith "0x" s then Py.int 16 s else Py.int 10 s.

(** The second operand of LOAD and of the arithmetic commands: a register
    name (any case) stands for its number. *)
Definition reg_or_literal (s : string) : Z + Py.exn :=
  match Py.assoc (Py.upper s) registers with
  | Some i => inl i
  | None => literal s
  end.

(** The [if]/[elif] chain inside the [try] of [_second_pass]. *)
Definition encode (lbls : gmap string Z) (line_num : nat) (command : string)
    (parts : list string) : outcome :=
  if String.eqb command "HALT" || String.eqb command "RET" then
    Encoded []
  else if Py.mem command ["PUSH"; "POP"] then
    match parts with
    | _ :: p1 :: _ =>
        let reg := Py.upper p1 in
        match (if Py.is_empty reg then None else Py.assoc reg registers) with
        | Some i => Encoded [i]
        | None => Rejected (at_line line_num ("Неверный регистр '" +:+ reg +:+ "'"))
        end
    | _ => Rejected (at_line line_num "Неверный регистр 'None'")
    end
  else if Py.mem command ["JMP"; "JZ"; "JNZ"; "CALL"] then
    match parts with
    | _ :: label :: _ =>
        if Py.is_empty label then
          Rejected (at_line line_num ("Не указана метка для " +:+ command))
        else
          match lbls !! label with
          | Some addr => Encoded [addr]
          | None =>
              if Py.isdigit label then
                match Py.int 10 label with
                | inl addr => Encoded [addr]
                | inr e => Raised e
                end
              else
                Rejected (at_line line_num
                            ("Неизвестная метка '" +:+ label +:+ "'"))
          end
    | _ => Rejected (at_line line_num ("Не указана метка для " +:+ command))
    end
  else if String.eqb command "CMP" then
    match parts with
    | _ :: p1 :: p2 :: _ =>
        let reg1 := Py.upper p1 in
        let reg2 := Py.upper p2 in
        match Py.assoc reg1 registers, Py.assoc reg2 registers with
        | Some r1, Some r2 => Encoded [r1; r2]
        | _, _ => Rejected (at_line line_num "Неверные регистры для CMP")
        end
    | _ => Rejected (at_line line_num "CMP требует двух регистров")
    end
  else if Py.mem command ["ADD"; "SUB"; "MUL"; "DIV"; "MOD"] then
    match parts with
    | _ :: p1 :: op2_str :: _ =>
        let reg1 := Py.upper p1 in
        match Py.assoc reg1 registers with
        | None =>
            Rejected (at_line line_num
                        ("Неверный регистр '" +:+ reg1 +:+ "' для " +:+ command))
        | Some r1 =>
            match reg_or_literal op2_str with
            | inr e => Raised e
            | inl op2 =>
                if (0 <=? op2) && (op2 <=? 255) then Encoded [r1; op2]
                else Rejected (at_line line_num
                       ("Операнд вне диапазона [0-255] для " +:+ command))
            end
        end
    | _ => Rejected (at_line line_num (command +:+ " требует двух операндов"))
    end
  else if String.eqb command "LOAD" then
    match parts with
    | _ :: p1 :: value_str :: _ =>
        let reg := Py.upper p1 in
        match Py.assoc reg registers with
        | None =>
            Rejected (at_line line_num ("Неверный регистр '" +:+ reg +:+ "'"))
        | Some r =>
            match reg_or_literal value_str with
            | inr e => Raised e
            | inl value =>
                if (0 <=? value) && (value <=? 255) then Encoded [r; value]
                else Rejected (at_line line_num "Значение вне диапазона [0-255]")
            end
        end
    | _ => Rejected (at_line line_num "LOAD требует двух операндов")
    end
  else if String.eqb command "STORE" then
    match parts with
    | _ :: p1 :: addr_str :: _ =>
        let reg := Py.upper p1 in
        match Py.assoc reg registers with
        | None =>
            Rejected (at_line line_num ("Неверный регистр '" +:+ reg +:+ "'"))
        | Some r =>
            match literal addr_str with
            | inr e => Raised e
            | inl addr =>
                if (0 <=? addr) && (addr <=? 65535) then
                  Encoded [r; Z.land addr 0xFF; Z.land (Z.shiftr addr 8) 0xFF]
                else Rejected (at_line line_num "Адрес вне диапазона")
            end
        end
    | _ => Rejected (at_line line_num "STORE требует двух операндов")
    end
  else Encoded [].

(** The body of the loop of [_second_pass]. *)
Definition second_pass_line (st : Assembler) (addr : Z) (line_num : nat)
    (l : string) : Assembler * Z :=
  let l := strip_comment l in
  let l := Py.strip l in
  if Py.is_empty l then (st, addr)
  else if Py.contains ":"%char l then (st, addr)
  else
    let l := strip_comment l in
    let l := Py.replace ","%char " "%char l in
    let l := Py.strip l in
    match Py.split l with
    | [] => (st, addr)
    | (p0 :: _) as parts =>
        let command := Py.upper p0 in
        match Py.assoc command commands with
        | None =>
            (add_error (at_line line_num
                          ("Неизвестная команда '" +:+ command +:+ "'")) st,
             addr)
        | Some opc =>
            match encode (labels st) line_num command parts with
            | Encoded ops =>
                (add_instruction
                   (mkInstruction command opc ops line_num addr) st,
                 addr + 1 + Z.of_nat (length ops))
            | Rejected msg => (add_error msg st, addr)
            | Raised e =>
                (add_error (at_line line_num
                              ("Ошибка парсинга: " +:+ Py.exn_text e)) st,
                 addr)
            end
        end
    end.

Fixpoint second_pass_from (st : Assembler) (addr : Z) (line_num : nat)
    (lines : list string) : Assembler * Z :=
  match lines with
  | [] => (st, addr)
  | l :: rest =>
      let '(st', addr') := second_pass_line st addr line_num l in
      second_pass_from st' addr' (S line_num) rest
  end.

(** [_second_pass]: [enumerate(lines, 1)], [address = 0]. *)
Definition _second_pass (st : Assembler) (lines : list string) : Assembler :=
  fst (second_pass_from st 0 1%nat lines).

(** [assemble], from the list [f.readlines()] returns: the object, and the
    status of [sys.exit] when the run ends the process. *)
Definition assemble (st : Assembler) (lines : list string)
  : Assembler * option Z :=
  let st := set_source_lines lines st in
  let st := _first_pass st lines in
  let st := _second_pass st lines in
  (st, match errors st with [] => None | _ :: _ => Some 1 end).

(** [get_machine_code] *)
Definition get_machine_code (st : Assembler) : list Z :=
  flat_map (fun i => opcode i :: operands i) (instructions st).

(** The tokens [parts] that the second pass reads on a line, [None] for a
    line it skips before tokenising (blank, comment only, or holding a
    colon). *)
Definition statement_parts (l : string) : option (list string) :=
  let t := Py.strip (strip_comment l) in
  if Py.is_empty t || Py.contains ":"%char t then None
  else Some (Py.split (Py.strip (Py.replace ","%char " "%char (strip_comment t)))).

(** What one line adds to an object that holds the label table [lbls]:
    the diagnostics, the instruction records, and the address after it. *)
Definition diagnostics (lbls : gmap string Z) (line_num : nat) (l : string)
  : list string :=
  errors (fst (second_pass_line (mkAssembler [] lbls [] []) 0 line_num l)).

Definition emitted (lbls : gmap string Z) (addr : Z) (line_num : nat)
    (l : string) : list Instruction :=
  instructions (fst (second_pass_line (mkAssembler [] lbls [] []) addr line_num l)).

Definition next_address (lbls : gmap string Z) (addr : Z) (line_num : nat)
    (l : string) : Z :=
  snd (second_pass_line (mkAssembler [] lbls [] []) addr line_num l).

(** The same for a whole pass over [enumerate(lines, line_num)]. *)
Definition pass_diagnostics (lbls : gmap string Z) (line_num : nat)
    (lines : list string) : list string :=
  flat_map (fun '(k, l) => diagnostics lbls k l) (Py.enumerate line_num lines).

Fixpoint pass_emitted (lbls : gmap string Z) (addr : Z) (line_num : nat)
    (lines : list string) : list Instruction :=
  match lines with
  | [] => []
  | l :: rest =>
      emitted lbls addr line_num l
      ++ pass_emitted lbls (next_address lbls addr line_num l) (S line_num) rest
  end.

(** The name a line declares in pass 1, if it declares one. *)
Definition label_decl (l : string) : option string :=
  let t := Py.strip (strip_comment l) in
  if Py.is_empty t then None
  else if Py.contains ":"%char t
       then Some (Py.strip (hd EmptyString (Py.split_on ":"%char t)))
       else None.

(** The address pass 1 holds after a line. *)
Definition advance (addr : Z) (l : string) : Z :=
  snd (first_pass_line init addr l).

(** The assignments [self.labels[name] = address] of pass 1, in order. *)
Fixpoint decls (addr : Z) (lines : list string) : list (string * Z) :=
  match lines with
  | [] => []
  | l :: rest =>
      match label_decl l with
      | Some k => (k, addr) :: decls (advance addr l) rest
      | None => decls (advance addr l) rest
      end
  end.

Definition assign (m : gmap string Z) (kv : string * Z) : gmap string Z :=
  <[kv.1 := kv.2]> m.

(** The dictionary [get_statistics] returns. *)
Record Statistics : Type := mkStatistics {
  num_instructions : nat;
  num_bytes : nat;
  num_labels : nat;
  stat_labels : gmap string Z
}.

(** [get_statistics] *)
Definition get_statistics (st : Assembler) : Statistics :=
  mkStatistics (length (instructions st))
               (length (get_machine_code st))
               (size (labels st))
               (labels st).

(** A value that [bytes] accepts as one element. *)
Definition is_byte (z : Z) : bool := (0 <=? z) && (z <=? 255).

(** [bytes(xs)] for a list of integers: the list itself when every element
    is in [range(256)], a [ValueError] otherwise. *)
Definition to_bytes (xs : list Z) : list Z + Py.exn :=
  if forallb is_byte xs then inl xs
  else inr (Py.ValueError "bytes must be in range(0, 256)").

(** [save_to_binary_file], the file system left aside: the bytes written to
    the file and the count returned, or the exception that leaves the
    method ([ValueError] is not caught by its [except IOError]). *)
Definition save_to_binary_file (st : Assembler) : (list Z * Z) + Py.exn :=
  let machine_code := get_machine_code st in
  match to_bytes machine_code with
  | inl written => inl (written, Z.of_nat (length machine_code))
  | inr e => inr e
  end.

(** The jump and call group of the second pass. *)
Definition is_jump (command : string) : bool :=
  Py.mem command ["JMP"; "JZ"; "JNZ"; "CALL"].

(** The number of operands the second pass stores for a command, read off
    the branches of its [if]/[elif] chain. *)
Definition operand_count (command : string) : nat :=
  if String.eqb command "HALT" || String.eqb command "RET" then 0
  else if Py.mem command ["PUSH"; "POP"] then 1
  else if Py.mem command ["JMP"; "JZ"; "JNZ"; "CALL"] then 1
  else if String.eqb command "CMP" then 2
  else if Py.mem command ["ADD"; "SUB"; "MUL"; "DIV"; "MOD"] then 2
  else if String.eqb command "LOAD" then 2
  else if String.eqb command "STORE" then 3
  else 0.

(** The bytes of one instruction record, as [get_machine_code] lays them
    out. *)
Definition instruction_bytes (i : Instruction) : list Z :=
  opcode i :: operands i.

(** A line on which the two passes count the same: it gives no diagnostic
    and what it emits is neither a jump, a call nor a STORE. *)
Definition counted_alike (lbls : gmap string Z) (line_num : nat) (l : string)
  : Prop :=
  diagnostics lbls line_num l = [] /\
  forall i, In i (emitted lbls 0 line_num l) ->
            is_jump (mnemonic i) = false /\ mnemonic i <> "STORE".

(** [label_name = line.split(':')[0].strip()], [line] being the text of
    the line without its comment, trimmed. *)
Definition label_of_line (l : string) : string :=
  Py.strip (hd EmptyString (Py.split_on ":"%char (Py.strip (strip_comment l)))).

(** ** Faulty lines

    The operand grammar of each mnemonic, as the specification tabulates
    it. *)
Inductive OperandGrammar : Type :=
| NoOperands
| SingleRegister
| SingleAddress
| RegisterRegister
| RegisterRegOrImmediate
| RegisterImmediate
| RegisterWideAddress.

Definition grammars : list (string * OperandGrammar) :=
  [ ("HALT", NoOperands); ("RET", NoOperands);
    ("PUSH", SingleRegister); ("POP", SingleRegister);
    ("JMP", SingleAddress); ("JZ", SingleAddress);
    ("JNZ", SingleAddress); ("CALL", SingleAddress);
    ("CMP", RegisterRegister);
    ("ADD", RegisterRegOrImmediate); ("SUB", RegisterRegOrImmediate);
    ("MUL", RegisterRegOrImmediate); ("DIV", RegisterRegOrImmediate);
    ("MOD", RegisterRegOrImmediate);
    ("LOAD", RegisterImmediate);
    ("STORE", RegisterWideAddress) ].

(** A register operand: the name of a register, in any case. *)
Definition is_register (tok : string) : bool :=
  bool_decide (is_Some (Py.assoc (Py.upper tok) registers)).

(** A value that was read and lies between [lo] and [hi]. *)
Definition in_range (lo hi : Z) (r : Z + Py.exn) : bool :=
  match r with
  | inl v => (lo <=? v) && (v <=? hi)
  | inr _ => false
  end.

(** The target of a jump or call: a declared label, or a decimal literal
    that [int] reads.  No range is asked of it. *)
Definition is_target (lbls : gmap string Z) (tok : string) : bool :=
  negb (Py.is_empty tok) &&
  (bool_decide (is_Some (lbls !! tok))
   || (Py.isdigit tok &&
       match Py.int 10 tok with inl _ => true | inr _ => false end)).

(** The operands of a statement fit its grammar: there are enough of them
    (more are ignored), each register is one, each target resolves, each
    literal is read and lies in the range of its field.  A register name
    in the immediate field of LOAD or of an arithmetic command stands for
    its number. *)
Definition operands_ok (lbls : gmap string Z) (g : OperandGrammar)
    (operands : list string) : bool :=
  match g, operands with
  | NoOperands, _ => true
  | SingleRegister, r :: _ => is_register r
  | SingleAddress, t :: _ => is_target lbls t
  | RegisterRegister, r1 :: r2 :: _ => is_register r1 && is_register r2
  | RegisterRegOrImmediate, r :: v :: _ =>
      is_register r && in_range 0 255 (reg_or_literal v)
  | RegisterImmediate, r :: v :: _ =>
      is_register r && in_range 0 255 (reg_or_literal v)
  | RegisterWideAddress, r :: a :: _ =>
      is_register r && in_range 0 65535 (literal a)
  | _, _ => false
  end.

(** A faulty line: a statement whose mnemonic is unknown or whose operands
    do not fit the grammar of its mnemonic. *)
Definition faulty (lbls : gmap string Z) (l : string) : bool :=
  match statement_parts l with
  | Some (p0 :: operands) =>
      match Py.assoc (Py.upper p0) grammars with
      | Some g => negb (operands_ok lbls g operands)
      | None => true
      end
  | _ => false
  end.


End Stage2.

(* ===================================================================== *)
(** * Stage 1: [assembler.py]                                             *)
(* ===================================================================== *)

Module Stage1.

(** [self.commands] *)
Definition commands : list (string * Z) :=
  [ ("LOAD", 0x01); ("STORE", 0x02); ("ADD", 0x03); ("SUB", 0x04);
    ("MUL", 0x05); ("DIV", 0x06); ("MOD", 0x07); ("JMP", 0x08);
    ("JZ", 0x09); ("JNZ", 0x0A); ("CMP", 0x0B); ("CALL", 0x0C);
    ("RET", 0x0D); ("PUSH", 0x0E); ("POP", 0x0F); ("HALT", 0x10) ].

(** [self.registers] *)
Definition registers : list (string * Z) :=
  [ ("A", 0); ("B", 1); ("C", 2); ("D", 3) ].

(** The assembler object. *)
Record Assembler : Type := mkAssembler {
  instructions : list Z;
  labels : gmap string Z;
  errors : list string;
  warnings : list string
}.

(** [__init__] *)
Definition init : Assembler := mkAssembler [] ∅ [] [].

Definition set_instructions (code : list Z) (st : Assembler) : Assembler :=
  mkAssembler code (labels st) (errors st) (warnings st).

Definition push (b : Z) (st : Assembler) : Assembler :=
  mkAssembler (instructions st ++ [b]) (labels st) (errors st) (warnings st).

Definition set_label (k : string) (v : Z) (st : Assembler) : Assembler :=
  mkAssembler (instructions st) (<[k := v]> (labels st)) (errors st)
              (warnings st).

Definition add_error (msg : string) (st : Assembler) : Assembler :=
  mkAssembler (instructions st) (labels st) (errors st ++ [msg]) (warnings st).

Definition add_warning (msg : string) (st : Assembler) : Assembler :=
  mkAssembler (instructions st) (labels st) (errors st) (warnings st ++ [msg]).

(** How the body of a loop ends: the next iteration, a [return], or an
    exception that nothing catches. *)
Inductive control : Type :=
| Continue (st : Assembler)
| Return (b : bool) (st : Assembler)
| Throw (e : Py.exn) (st : Assembler).

(** [is_valid_number] *)
Definition is_valid_number (s : string) : bool :=
  match Py.int 0 s with
  | inl _ => true
  | inr (Py.ValueError _) => false
  | inr (Py.IndexError _) => false
  end.

(** [is_valid_identifier] *)
Definition is_valid_identifier (s : string) : bool :=
  Py.isidentifier s && negb (bool_decide (is_Some (Py.assoc (Py.upper s) commands))).

(** [if ';' in line: line = line.split(';')[0]] *)
Definition strip_comment (l : string) : string :=
  if Py.contains ";"%char l then hd EmptyString (Py.split_on ";"%char l) else l.

Definition at_line (line_num : nat) (msg : string) : string :=
  "Строка " +:+ pretty line_num +:+ ": " +:+ msg.

(** The body of the loop of [first_pass]. *)
Definition first_pass_line (st : Assembler) (line_num : nat) (l : string)
  : control :=
  let l := strip_comment l in
  let l := Py.strip l in
  if Py.is_empty l then Continue st
  else if Py.endswith ":"%char l then
    let label := Py.strip (Py.drop_last l) in
    if negb (is_valid_identifier label) then
      Return false
        (add_error (at_line line_num ("Неверное имя метки '" +:+ label +:+ "'")) st)
    else if bool_decide (is_Some (labels st !! label)) then
      Return false
        (add_error (at_line line_num ("Метка '" +:+ label +:+ "' уже определена")) st)
    else Continue (set_label label (Z.of_nat (length (instructions st))) st)
  else
    match Py.split l with
    | [] => Continue st
    | p0 :: _ =>
        let cmd := Py.upper p0 in
        match Py.assoc cmd commands with
        | None =>
            Return false
              (add_error (at_line line_num
                            ("Неизвестная команда '" +:+ cmd +:+ "'")) st)
        | Some _ => Continue (push 0 st)
        end
    end.

(** A [for] loop over [enumerate(lines, line_num)] whose body is [body];
    falling off the end runs [return True]. *)
Fixpoint for_lines (body : Assembler -> nat -> string -> control)
    (st : Assembler) (line_num : nat) (lines : list string) : control :=
  match lines with
  | [] => Return true st
  | l :: rest =>
      match body st line_num l with
      | Continue st' => for_lines body st' (S line_num) rest
      | other => other
      end
  end.

(** [first_pass] *)
Definition first_pass (st : Assembler) (lines : list string) : control :=
  for_lines first_pass_line st 1%nat lines.

(** One iteration of [for operand in operands]. *)
Definition operand_step (st : Assembler) (line_num : nat) (operand : string)
  : control :=
  let operand_clean := Py.strip (Py.rstrip_comma operand) in
  match labels st !! operand_clean with
  | Some addr => Continue (push addr st)
  | None =>
      match Py.assoc operand_clean registers with
      | Some r => Continue (push r st)
      | None =>
          if is_valid_number operand_clean then
            match Py.int 0 operand_clean with
            | inl val =>
                if 255 <? val then
                  (* the f-string formats [val], which can fail, then
                     [val & 0xFF], which is below 256 *)
                  match Py.str_int val with
                  | inl shown =>
                      Continue
                        (push (Z.land val 0xFF)
                           (add_warning
                              (at_line line_num
                                 ("Значение " +:+ shown +:+ " больше 255, "
                                  +:+ "будет использовано "
                                  +:+ pretty (Z.land val 0xFF))) st))
                  | inr e => Throw e st
                  end
                else Continue (push (Z.land val 0xFF) st)
            | inr e => Throw e st
            end
          else
            Return false
              (add_error (at_line line_num
                            ("Неверный операнд '" +:+ operand_clean +:+ "'")) st)
      end
  end.

Fixpoint for_operands (st : Assembler) (line_num : nat)
    (operands : list string) : control :=
  match operands with
  | [] => Continue st
  | o :: rest =>
      match operand_step st line_num o with
      | Continue st' => for_operands st' line_num rest
      | other => other
      end
  end.

(** The body of the loop of [second_pass]. *)
Definition second_pass_line (st : Assembler) (line_num : nat) (l : string)
  : control :=
  let l := strip_comment l in
  let l := Py.strip l in
  if Py.is_empty l || Py.endswith ":"%char l then Continue st
  else
    match Py.split l with
    | [] => Throw (Py.IndexError "list index out of range") st
    | p0 :: operands =>
        let cmd := Py.upper p0 in
        match Py.assoc cmd commands with
        | None => Continue st
        | Some opc => for_operands (push opc st) line_num operands
        end
    end.

(** [second_pass] *)
Definition second_pass (st : Assembler) (lines : list string) : control :=
  for_lines second_pass_line (set_instructions [] st) 1%nat lines.

(** [assemble] *)
Definition assemble (st : Assembler) (source_code : string) : control :=
  let lines := Py.split_on Py.LF source_code in
  let st := set_instructions [] st in
  match first_pass st lines with
  | Return true st =>
      let st := set_instructions [] st in
      match second_pass st lines with
      | Return true st => Return true st
      | Return false st => Return false st
      | other => other
      end
  | Return false st => Return false st
  | other => other
  end.

(** The object a call leaves behind, and the value it returns, if any. *)
Definition object (c : control) : Assembler :=
  match c with
  | Continue st => st
  | Return _ st => st
  | Throw _ st => st
  end.

Definition returned (c : control) : option bool :=
  match c with
  | Return b _ => Some b
  | _ => None
  end.

(** The exception that leaves a call, if one does. *)
Definition raised (c : control) : option Py.exn :=
  match c with
  | Throw e _ => Some e
  | _ => None
  end.

(** A step that leaves the label table as it was. *)
Definition labels_kept (lbls : gmap string Z) (c : control) : Prop :=
  labels (object c) = lbls.

(** The text of a line that both passes look at: comment removed, then
    trimmed. *)
Definition logical (l : string) : string := Py.strip (strip_comment l).

(** The name a line declares: the line ends with a colon. *)
Definition label_decl (l : string) : option string :=
  if Py.endswith ":"%char (logical l)
  then Some (Py.strip (Py.drop_last (logical l)))
  else None.

(** [operand.rstrip(',').strip()] *)
Definition clean (operand : string) : string :=
  Py.strip (Py.rstrip_comma operand).

(** What a loop may do with the diagnostics: leave them alone and go on, or
    append one line-attributed error and return [False].  No exception, no
    other return. *)
Definition one_error_or_none (errs : list string) (c : control) : Prop :=
  match c with
  | Continue st' => errors st' = errs
  | Return true st' => errors st' = errs
  | Return false st' =>
      exists (n : nat) (msg : string), errors st' = errs ++ [at_line n msg]
  | Throw _ _ => False
  end.

(** The same for a finished method: it has returned. *)
Definition returns_with_one_error_or_none (errs : list string) (c : control)
  : Prop :=
  match c with
  | Return true st' => errors st' = errs
  | Return false st' =>
      exists (n : nat) (msg : string), errors st' = errs ++ [at_line n msg]
  | Continue _ => False
  | Throw _ _ => False
  end.

(** [parse_operand]: the value, [None], or the exception of [int]. *)
Definition parse_operand (operand : string) : option Z + Py.exn :=
  let operand := Py.rstrip_comma (Py.strip operand) in
  match Py.assoc operand registers with
  | Some r => inl (Some r)
  | None =>
      if is_valid_number operand then
        match Py.int 0 operand with
        | inl v => inl (Some v)
        | inr e => inr e
        end
      else inl None
  end.

(** The bytes the second pass appends for a line when every operand is
    accepted: none for a blank line, a declaration or an unknown command,
    otherwise one per token. *)
Definition bytes_of_line (l : string) : nat :=
  if Py.is_empty (logical l) || Py.endswith ":"%char (logical l) then 0%nat
  else
    match Py.split (logical l) with
    | [] => 0%nat
    | p0 :: operands =>
        match Py.assoc (Py.upper p0) commands with
        | None => 0%nat
        | Some _ => S (length operands)
        end
    end.

(** A token as [split] yields it: no white space inside. *)
Definition no_space (s : string) : bool :=
  Py.forallb_str (fun c => negb (Py.isspace c)) s.

(** The object holds bytes only, in the label table and in the code. *)
Definition holds_bytes (st : Assembler) : Prop :=
  (forall k v, labels st !! k = Some v -> 0 <= v <= 255) /\
  Forall (fun z => 0 <= z <= 255) (instructions st).

(** [label = line[:-1].strip()], [line] being the text of the line
    without its comment, trimmed. *)
Definition label_of_line (l : string) : string :=
  Py.strip (Py.drop_last (logical l)).

(** The same when the exception of the warning may leave: the value of a
    literal has more decimal digits than [str] converts, the diagnostics
    are as they were. *)
Definition one_error_none_or_limit (errs : list string) (c : control) : Prop :=
  match c with
  | Continue st' => errors st' = errs
  | Return true st' => errors st' = errs
  | Return false st' =>
      exists (n : nat) (msg : string), errors st' = errs ++ [at_line n msg]
  | Throw e st' => e = Py.str_limit_error /\ errors st' = errs
  end.

(** A finished method: it has returned, or raised that exception. *)
Definition returns_or_raises_limit (errs : list string) (c : control) : Prop :=
  match c with
  | Return true st' => errors st' = errs
  | Return false st' =>
      exists (n : nat) (msg : string), errors st' = errs ++ [at_line n msg]
  | Throw e st' => e = Py.str_limit_error /\ errors st' = errs
  | Continue _ => False
  end.


End Stage1.

(* ===================================================================== *)
(** * Programs used in the statements                                     *)
(* ===================================================================== *)

Module Programs.

Definition nl : string := String Py.LF EmptyString.

(** The forward-reference scenario, as the text of a source file. *)
Definition forward_reference : string :=
  Py.join nl
    [ "START:"; "LOAD A 5"; "LOAD B 10"; "ADD A B"; "JZ END"; "JMP START";
      "END:"; "HALT" ].

(** A jump to a label that lies beyond byte 255: 86 LOADs of three bytes
    come first. *)
Definition far_label : string :=
  Py.join nl (repeat "LOAD A 1" 86 ++ ["FAR:"; "JMP FAR"]).

(** The same for stage 1, where a label counts instructions: 256 HALTs come
    first. *)
Definition far_label1 : string :=
  Py.join nl (repeat "HALT" 256 ++ ["FAR:"; "JMP FAR"]).

(** A hexadecimal literal whose value has more than 4300 decimal digits:
    [0x1] followed by 3572 zeros, that is 16 ^ 3572. *)
Definition huge_literal : string :=
  "0x1" +:+ Py.join EmptyString (repeat "0" 3572).

(** Stage 2 reads a file; the object it leaves after one run on a fresh
    assembler. *)
Definition run2 (text : string) : Stage2.Assembler :=
  fst (Stage2.assemble Stage2.init (Py.readlines text)).

(** Stage 1 takes the text; one run on a fresh assembler. *)
Definition run1 (text : string) : Stage1.control :=
  Stage1.assemble Stage1.init text.

End Programs.

(* ===================================================================== *)
(** * Concrete runs                                                       *)
(* ===================================================================== *)

Import Programs.

(** C2.  On the forward-reference scenario the stage-2 assembler resolves
    START to 0 and END to 15, records no error, and produces the bytes
    01 00 05 01 01 0a 03 00 01 09 0f 08 00 10. *)
Theorem forward_reference_scenario :
  Stage2.labels (run2 forward_reference) !! "START" = Some 0 /\
  Stage2.labels (run2 forward_reference) !! "END" = Some 15 /\
  Stage2.errors (run2 forward_reference) = [] /\
  Stage2.get_machine_code (run2 forward_reference) =
    [0x01; 0x00; 0x05; 0x01; 0x01; 0x0a; 0x03; 0x00; 0x01; 0x09; 0x0f;
     0x08; 0x00; 0x10].
Proof. vm_compute. repeat split. Qed.

(** C1.  The address pass 1 records for a label is not the address of the
    instruction that follows it: in the forward-reference scenario END is
    recorded as 15 while the HALT after it (source line 8) is emitted at
    address 13, because pass 1 charges three bytes for JZ and JMP and pass 2
    emits two; and after a single STORE, which pass 1 charges three bytes
    and pass 2 encodes in four, the label is 3 and the next instruction is
    at 4. *)
Theorem label_address_is_not_next_instruction_address :
  Stage2.labels (run2 forward_reference) !! "END" = Some 15 /\
  nth_error (Stage2.instructions (run2 forward_reference)) 5 =
    Some (Stage2.mkInstruction "HALT" 0x10 [] 8 13) /\
  Stage2.width "JZ" = 3 /\ Stage2.width "STORE" = 3 /\
  Stage2.labels (run2 (Py.join nl ["STORE A 300"; "END:"; "HALT"])) !! "END"
    = Some 3 /\
  Stage2.instructions (run2 (Py.join nl ["STORE A 300"; "END:"; "HALT"])) =
    [ Stage2.mkInstruction "STORE" 0x02 [0; 0x2c; 0x01] 1 0;
      Stage2.mkInstruction "HALT" 0x10 [] 3 4 ].
Proof. vm_compute. repeat split. Qed.

(** C7.  The stage-2 encoder has no range check on a jump target.  A jump
    to the literal 300 leaves no diagnostic and the operand list holds 300,
    which is not a byte: the machine code is the list 8, 300.  A jump to a
    label that pass 1 resolved to 258 (after 86 three-byte LOADs) is
    emitted in the same way, with operand 258.  In stage 1 the label branch
    of the operand loop appends the table entry as it is: a label that
    follows 256 instructions is emitted as 256, with neither error nor
    warning. *)
Theorem jump_target_is_not_range_checked :
  Stage2.errors (run2 "JMP 300") = [] /\
  Stage2.instructions (run2 "JMP 300") =
    [ Stage2.mkInstruction "JMP" 0x08 [300] 1 0 ] /\
  Stage2.get_machine_code (run2 "JMP 300") = [8; 300] /\
  Stage2.errors (run2 far_label) = [] /\
  Stage2.labels (run2 far_label) !! "FAR" = Some 258 /\
  last (Stage2.instructions (run2 far_label)) =
    Some (Stage2.mkInstruction "JMP" 0x08 [258] 88 258) /\
  Stage1.returned (run1 far_label1) = Some true /\
  Stage1.errors (Stage1.object (run1 far_label1)) = [] /\
  Stage1.warnings (Stage1.object (run1 far_label1)) = [] /\
  last (Stage1.instructions (Stage1.object (run1 far_label1))) = Some 256.
Proof. vm_compute. repeat split. Qed.

(* ===================================================================== *)
(** * Facts about the string primitives                                   *)
(* ===================================================================== *)

Lemma split_from_nonempty (cur s : string) :
  Py.is_empty cur = false -> Py.split_from cur s <> [].
Proof.
  revert cur. induction s as [|c r IH]; intros cur Hcur; simpl.
  - rewrite Hcur. discriminate.
  - destruct (Py.isspace c).
    + rewrite Hcur. discriminate.
    + apply IH. destruct cur; reflexivity.
Qed.

Lemma lstrip_head (s : string) :
  match Py.lstrip s with
  | EmptyString => True
  | String c _ => Py.isspace c = false
  end.
Proof.
  induction s as [|c r IH]; simpl; [exact I|].
  destruct (Py.isspace c) eqn:E; [exact IH|exact E].
Qed.

Lemma strip_head (s : string) :
  match Py.strip s with
  | EmptyString => True
  | String c _ => Py.isspace c = false
  end.
Proof.
  unfold Py.strip, Py.rstrip.
  pose proof (lstrip_head s) as H.
  destruct (Py.lstrip s) as [|c r]; simpl; [exact I|].
  rewrite H. simpl. exact H.
Qed.

(** A trimmed line that is not empty has a first token: [parts[0]] is
    defined wherever the second pass of stage 1 reads it. *)
Lemma split_strip_nonempty (s : string) :
  Py.is_empty (Py.strip s) = false -> Py.split (Py.strip s) <> [].
Proof.
  intros Hne. pose proof (strip_head s) as H.
  destruct (Py.strip s) as [|c r]; [discriminate|].
  unfold Py.split. simpl. rewrite H. apply split_from_nonempty. reflexivity.
Qed.

Lemma append_cons (c : ascii) (s t : string) :
  String c s +:+ t = String c (s +:+ t).
Proof. reflexivity. Qed.

Lemma append_empty_r (s : string) : s +:+ EmptyString = s.
Proof.
  induction s as [|c s IH]; [reflexivity|]. now rewrite append_cons, IH.
Qed.

Lemma append_assoc (s t u : string) : (s +:+ t) +:+ u = s +:+ (t +:+ u).
Proof.
  induction s as [|c s IH]; [reflexivity|]. now rewrite !append_cons, IH.
Qed.

Lemma split_on_from_hd (sep : ascii) (cur s : string) :
  hd EmptyString (Py.split_on_from sep cur s) = cur +:+ Py.before sep s.
Proof.
  revert cur. induction s as [|c r IH]; intros cur; simpl.
  - now rewrite append_empty_r.
  - rewrite (Ascii.eqb_sym sep c). destruct (Ascii.eqb c sep); simpl.
    + now rewrite append_empty_r.
    + rewrite IH. now rewrite append_assoc.
Qed.

(** [s.split(c)[0]] is the text before the first [c]. *)
Lemma split_on_hd (sep : ascii) (s : string) :
  hd EmptyString (Py.split_on sep s) = Py.before sep s.
Proof. unfold Py.split_on. now rewrite split_on_from_hd. Qed.

(** A value accepted by [is_valid_number] is parsed by [int(s, 0)]. *)
Lemma is_valid_number_int (s : string) :
  Stage1.is_valid_number s = true -> exists z, Py.int 0 s = inl z.
Proof.
  unfold Stage1.is_valid_number.
  destruct (Py.int 0 s) as [z|[m|m]]; [eauto|discriminate|discriminate].
Qed.

(* ===================================================================== *)
(** * Stage 2: the second pass, line by line                              *)
(* ===================================================================== *)

Section Stage2_lines.

Import Stage2.

(** The loop body in terms of the tokens of the line. *)
Lemma second_pass_line_parts (st : Assembler) (addr : Z) (n : nat) (l : string) :
  second_pass_line st addr n l =
  match statement_parts l with
  | None => (st, addr)
  | Some [] => (st, addr)
  | Some ((p0 :: _) as parts) =>
      match Py.assoc (Py.upper p0) commands with
      | None =>
          (add_error (at_line n ("Неизвестная команда '" +:+ Py.upper p0 +:+ "'")) st,
           addr)
      | Some opc =>
          match encode (labels st) n (Py.upper p0) parts with
          | Encoded ops =>
              (add_instruction (mkInstruction (Py.upper p0) opc ops n addr) st,
               addr + 1 + Z.of_nat (length ops))
          | Rejected msg => (add_error msg st, addr)
          | Raised e =>
              (add_error (at_line n ("Ошибка парсинга: " +:+ Py.exn_text e)) st,
               addr)
          end
      end
  end.
Proof.
  unfold second_pass_line, statement_parts.
  destruct (Py.is_empty (Py.strip (strip_comment l))); [reflexivity|].
  destruct (Py.contains ":" (Py.strip (strip_comment l))); [reflexivity|].
  simpl. destruct (Py.split _) as [|p0 ps]; reflexivity.
Qed.

(** The diagnostic of a line does not depend on the current address. *)
Lemma second_pass_line_errors_addr (st : Assembler) (a b : Z) (n : nat)
    (l : string) :
  errors (fst (second_pass_line st a n l)) =
  errors (fst (second_pass_line st b n l)).
Proof.
  rewrite !second_pass_line_parts.
  destruct (statement_parts l) as [[|p0 ps]|];
    [| destruct (Py.assoc (Py.upper p0) commands);
       [destruct (encode (labels st) n (Py.upper p0) (p0 :: ps))|] |];
    reflexivity.
Qed.

(** One line touches the object only by appending: what it appends is
    what it appends to an empty object holding the same label table. *)
Lemma second_pass_line_frame (st : Assembler) (addr : Z) (n : nat) (l : string) :
  second_pass_line st addr n l =
  (mkAssembler (instructions st ++ emitted (labels st) addr n l)
               (labels st)
               (errors st ++ diagnostics (labels st) n l)
               (source_lines st),
   next_address (labels st) addr n l).
Proof.
  unfold emitted, diagnostics, next_address.
  rewrite (second_pass_line_errors_addr _ 0 addr).
  rewrite !second_pass_line_parts.
  destruct st as [ins lbls errs src]. cbn [labels].
  destruct (statement_parts l) as [[|p0 ps]|];
    [| destruct (Py.assoc (Py.upper p0) commands);
       [destruct (encode lbls n (Py.upper p0) (p0 :: ps))|] |];
    cbn [fst snd instructions labels errors source_lines add_error
         add_instruction app];
    rewrite ?app_nil_r; reflexivity.
Qed.

(** A line records at most one diagnostic, and it is attributed to its line:
    it starts with [Строка n: ]. *)
Lemma diagnostics_attributed (lbls : gmap string Z) (n : nat) (l : string) :
  diagnostics lbls n l = [] \/
  exists msg, diagnostics lbls n l = [at_line n msg].
Proof.
  unfold diagnostics. rewrite second_pass_line_parts. cbn [labels].
  destruct (statement_parts l) as [[|p0 ps]|]; [now left| |now left].
  destruct (Py.assoc (Py.upper p0) commands);
    [|right; eexists; reflexivity].
  destruct (encode lbls n (Py.upper p0) (p0 :: ps)) as [ops|msg|e] eqn:E;
    [now left| |right; eexists; reflexivity].
  right. cbn [fst errors add_error app]. unfold encode in E.
  repeat match type of E with
         | (if ?b then _ else _) = _ => destruct b
         | match ?x with _ => _ end = _ => destruct x
         end; inversion E; subst; eauto.
Qed.

(** A line that records a diagnostic emits nothing and leaves the address
    where it was. *)
Lemma diagnostics_no_code (lbls : gmap string Z) (addr : Z) (n : nat)
    (l : string) :
  diagnostics lbls n l <> [] ->
  emitted lbls addr n l = [] /\ next_address lbls addr n l = addr.
Proof.
  unfold diagnostics, emitted, next_address.
  rewrite (second_pass_line_errors_addr _ 0 addr).
  rewrite !second_pass_line_parts. cbn [labels].
  destruct (statement_parts l) as [[|p0 ps]|];
    [| destruct (Py.assoc (Py.upper p0) commands);
       [destruct (encode lbls n (Py.upper p0) (p0 :: ps))|] |];
    cbn [fst snd instructions errors add_error add_instruction app];
    intros H; try (now destruct H); now split.
Qed.

(** The whole pass appends, line after line, what each line appends. *)
Lemma second_pass_from_frame (lines : list string) :
  forall (st : Assembler) (addr : Z) (n : nat),
    fst (second_pass_from st addr n lines) =
    mkAssembler (instructions st ++ pass_emitted (labels st) addr n lines)
                (labels st)
                (errors st ++ pass_diagnostics (labels st) n lines)
                (source_lines st).
Proof.
  induction lines as [|l rest IH]; intros st addr n.
  - destruct st; cbn. now rewrite !app_nil_r.
  - cbn [second_pass_from]. rewrite second_pass_line_frame.
    rewrite IH. cbn [instructions labels errors source_lines].
    unfold pass_diagnostics. cbn [Py.enumerate flat_map pass_emitted].
    now rewrite !app_assoc.
Qed.

End Stage2_lines.

(* ===================================================================== *)
(** * Stage 2: the first pass                                             *)
(* ===================================================================== *)

Section Stage2_labels.

Import Stage2.

Lemma first_pass_line_eq (st : Assembler) (addr : Z) (l : string) :
  first_pass_line st addr l =
  (match label_decl l with
   | Some k => set_label k addr st
   | None => st
   end, advance addr l).
Proof.
  unfold advance, first_pass_line, label_decl.
  destruct (Py.is_empty (Py.strip (strip_comment l))); [reflexivity|].
  destruct (Py.contains ":" (Py.strip (strip_comment l))); [reflexivity|].
  destruct (Py.split (Py.strip (strip_comment l))) as [|p0 ps]; [reflexivity|].
  cbv zeta. destruct (Py.assoc (Py.upper p0) commands); reflexivity.
Qed.

(** Pass 1 only assigns labels: instructions, diagnostics and source lines
    are left as they were. *)
Lemma first_pass_from_frame (lines : list string) :
  forall (st : Assembler) (addr : Z),
    fst (first_pass_from st addr lines) =
    mkAssembler (instructions st)
                (foldl assign (labels st) (decls addr lines))
                (errors st) (source_lines st).
Proof.
  induction lines as [|l rest IH]; intros st addr.
  - now destruct st.
  - cbn [first_pass_from decls]. rewrite first_pass_line_eq, IH.
    destruct (label_decl l); reflexivity.
Qed.

Lemma foldl_assign_union (ds : list (string * Z)) :
  forall m : gmap string Z,
    foldl assign m ds = list_to_map (reverse ds) ∪ m.
Proof.
  induction ds as [|[k v] ds IH]; intros m.
  - cbn. now rewrite (left_id_L ∅ (∪)).
  - cbn [foldl]. rewrite IH. unfold assign at 1. cbn [fst snd].
    rewrite reverse_cons, list_to_map_app. cbn [list_to_map foldr].
    rewrite <- (assoc_L (∪)). f_equal.
    rewrite insert_union_singleton_l, <- insert_empty. reflexivity.
Qed.

(** Running the assignments of pass 1 a second time changes nothing. *)
Lemma foldl_assign_twice (ds : list (string * Z)) (m : gmap string Z) :
  foldl assign (foldl assign m ds) ds = foldl assign m ds.
Proof.
  rewrite !foldl_assign_union, (assoc_L (∪)), (idemp_L (∪)). reflexivity.
Qed.

End Stage2_labels.

(* ===================================================================== *)
(** * Stage 1: the two passes                                             *)
(* ===================================================================== *)

Section Stage1_passes.

Import Stage1.

Lemma endswith_nonempty (c : ascii) (s : string) :
  Py.endswith c s = true -> Py.is_empty s = false.
Proof. destruct s; [discriminate|reflexivity]. Qed.

(** The loop body of pass 1 on a line that declares a label. *)
Lemma first_pass_line_label (st : Assembler) (n : nat) (l name : string) :
  label_decl l = Some name ->
  first_pass_line st n l =
  if negb (is_valid_identifier name) then
    Return false
      (add_error (at_line n ("Неверное имя метки '" +:+ name +:+ "'")) st)
  else if bool_decide (is_Some (labels st !! name)) then
    Return false
      (add_error (at_line n ("Метка '" +:+ name +:+ "' уже определена")) st)
  else Continue (set_label name (Z.of_nat (length (instructions st))) st).
Proof.
  unfold label_decl, logical, first_pass_line.
  destruct (Py.endswith ":" (Py.strip (strip_comment l))) eqn:E; [|discriminate].
  intros [= <-]. now rewrite (endswith_nonempty _ _ E).
Qed.

(** The loop body of pass 1 on any other line does not read the label
    table and does not write it. *)
Lemma first_pass_line_other (st : Assembler) (n : nat) (l : string) :
  label_decl l = None ->
  first_pass_line st n l =
  if Py.is_empty (logical l) then Continue st
  else
    match Py.split (logical l) with
    | [] => Continue st
    | p0 :: _ =>
        match Py.assoc (Py.upper p0) commands with
        | None =>
            Return false
              (add_error (at_line n ("Неизвестная команда '" +:+ Py.upper p0
                                     +:+ "'")) st)
        | Some _ => Continue (push 0 st)
        end
    end.
Proof.
  unfold label_decl, logical, first_pass_line.
  destruct (Py.endswith ":" (Py.strip (strip_comment l))); [discriminate|].
  reflexivity.
Qed.

Lemma first_pass_line_ok (st : Assembler) (n : nat) (l : string) :
  one_error_or_none (errors st) (first_pass_line st n l).
Proof.
  destruct (label_decl l) as [name|] eqn:E.
  - rewrite (first_pass_line_label _ _ _ _ E).
    destruct (negb _); [cbn; eauto|].
    destruct (bool_decide _); cbn; eauto.
  - rewrite (first_pass_line_other _ _ _ E).
    destruct (Py.is_empty _); [reflexivity|].
    destruct (Py.split _) as [|p0 ps]; [reflexivity|].
    destruct (Py.assoc _ _); cbn; eauto.
Qed.

Lemma first_pass_line_no_return_true (st : Assembler) (n : nat) (l : string)
    (st' : Assembler) :
  first_pass_line st n l <> Return true st'.
Proof.
  destruct (label_decl l) as [name|] eqn:E.
  - rewrite (first_pass_line_label _ _ _ _ E).
    destruct (negb _); [discriminate|].
    destruct (bool_decide _); discriminate.
  - rewrite (first_pass_line_other _ _ _ E).
    destruct (Py.is_empty _); [discriminate|].
    destruct (Py.split _) as [|p0 ps]; [discriminate|].
    destruct (Py.assoc _ _); discriminate.
Qed.

(** A loop whose body never returns [True] and that reaches the end of a
    prefix goes on with the rest. *)
Lemma for_lines_app (body : Assembler -> nat -> string -> control)
    (pre rest : list string) :
  (forall st n l st', body st n l <> Return true st') ->
  forall (st : Assembler) (n : nat) (st' : Assembler),
    for_lines body st n pre = Return true st' ->
    for_lines body st n (pre ++ rest) =
    for_lines body st' (n + length pre)%nat rest.
Proof.
  intros Hbody. induction pre as [|l pre IH]; intros st n st' H.
  - cbn in H. injection H as <-. cbn. now rewrite Nat.add_0_r.
  - cbn [for_lines app] in *.
    destruct (body st n l) as [st1|b st1|e st1] eqn:E.
    + rewrite (IH _ _ _ H). cbn [length]. f_equal. lia.
    + injection H as -> ->. now apply Hbody in E.
    + discriminate.
Qed.

(** A loop over lines returns, with at most one error more, when its body
    does. *)
Lemma for_lines_ok (body : Assembler -> nat -> string -> control)
    (lines : list string) :
  (forall st n l, one_error_or_none (errors st) (body st n l)) ->
  forall (st : Assembler) (n : nat),
    returns_with_one_error_or_none (errors st) (for_lines body st n lines).
Proof.
  intros Hbody. induction lines as [|l rest IH]; intros st n.
  - reflexivity.
  - cbn [for_lines]. pose proof (Hbody st n l) as H.
    destruct (body st n l) as [st1|[|] st1|e st1]; cbn in H |- *.
    + rewrite <- H. apply IH.
    + exact H.
    + exact H.
    + exact H.
Qed.

(** A loop over lines returns or raises as its body does. *)
Lemma for_lines_limit (body : Assembler -> nat -> string -> control)
    (lines : list string) :
  (forall st n l, one_error_none_or_limit (errors st) (body st n l)) ->
  forall (st : Assembler) (n : nat),
    returns_or_raises_limit (errors st) (for_lines body st n lines).
Proof.
  intros Hbody. induction lines as [|l rest IH]; intros st n.
  - reflexivity.
  - cbn [for_lines]. pose proof (Hbody st n l) as H.
    destruct (body st n l) as [st1|[|] st1|e st1]; cbn in H |- *.
    + rewrite <- H. apply IH.
    + exact H.
    + exact H.
    + exact H.
Qed.


(** One operand: the only exception is that of the warning. *)
Lemma operand_step_limit (st : Assembler) (n : nat) (o : string) :
  one_error_none_or_limit (errors st) (operand_step st n o).
Proof.
  unfold operand_step.
  destruct (labels st !! _); [reflexivity|].
  destruct (Py.assoc _ registers); [reflexivity|].
  destruct (is_valid_number _) eqn:E; [|cbn; eauto].
  destruct (is_valid_number_int _ E) as [z ->].
  destruct (255 <? z); [|reflexivity].
  unfold Py.str_int. destruct (Z.leb _ _); [now split|reflexivity].
Qed.

Lemma for_operands_limit (ops : list string) :
  forall (st : Assembler) (n : nat),
    one_error_none_or_limit (errors st) (for_operands st n ops).
Proof.
  induction ops as [|o rest IH]; intros st n.
  - reflexivity.
  - cbn [for_operands]. pose proof (operand_step_limit st n o) as H.
    destruct (operand_step st n o) as [st1|[|] st1|e st1]; cbn in H |- *.
    + rewrite <- H. apply IH.
    + exact H.
    + exact H.
    + exact H.
Qed.

Lemma second_pass_line_limit (st : Assembler) (n : nat) (l : string) :
  one_error_none_or_limit (errors st) (second_pass_line st n l).
Proof.
  unfold second_pass_line.
  destruct (Py.is_empty (Py.strip (strip_comment l))) eqn:E; [reflexivity|].
  cbn [orb]. destruct (Py.endswith _ _); [reflexivity|].
  pose proof (split_strip_nonempty _ E) as Hne.
  destruct (Py.split _) as [|p0 ops]; [now destruct Hne|].
  destruct (Py.assoc _ commands); [|reflexivity].
  apply (for_operands_limit ops (push _ st)).
Qed.






End Stage1_passes.

(* ===================================================================== *)
(** * Range of the LOAD immediate                                         *)
(* ===================================================================== *)

(** C3, as stated, fails on stage 1: [LOAD A, 256] assembles with no error;
    the operand is emitted as 256 & 0xFF = 0 and a warning is recorded. *)
Lemma stage1_load_256_wraps_with_warning :
  run1 "LOAD A, 256" =
  Stage1.Return true
    (Stage1.mkAssembler [0x01; 0; 0] ∅ []
       ["Строка 1: Значение 256 больше 255, будет использовано 0"]).
Proof. vm_compute. reflexivity. Qed.

(** C3 (amended).  In the stage-2 assembler, a line whose tokens are LOAD
    (in any case), a register name, and a register-or-literal operand whose
    value exceeds 255 records the range error for that line and emits
    nothing: the object gains exactly that diagnostic and the address does
    not move. *)
Theorem stage2_load_above_255_is_range_error
    (st : Stage2.Assembler) (addr : Z) (n : nat) (l p0 p1 v : string)
    (rest : list string) (r value : Z) :
  Stage2.statement_parts l = Some (p0 :: p1 :: v :: rest) ->
  Py.upper p0 = "LOAD" ->
  Py.assoc (Py.upper p1) Stage2.registers = Some r ->
  Stage2.reg_or_literal v = inl value ->
  255 < value ->
  Stage2.second_pass_line st addr n l =
  (Stage2.add_error (Stage2.at_line n "Значение вне диапазона [0-255]") st,
   addr).
Proof.
  intros Hparts Hcmd Hreg Hval Hbig.
  rewrite second_pass_line_parts, Hparts, Hcmd.
  change (Py.assoc "LOAD" Stage2.commands) with (Some 1).
  unfold Stage2.encode.
  change (String.eqb "LOAD" "HALT") with false.
  change (String.eqb "LOAD" "RET") with false.
  change (Py.mem "LOAD" ["PUSH"; "POP"]) with false.
  change (Py.mem "LOAD" ["JMP"; "JZ"; "JNZ"; "CALL"]) with false.
  change (String.eqb "LOAD" "CMP") with false.
  change (Py.mem "LOAD" ["ADD"; "SUB"; "MUL"; "DIV"; "MOD"]) with false.
  change (String.eqb "LOAD" "LOAD") with true.
  cbn [orb]. cbv iota. rewrite Hreg, Hval.
  replace (value <=? 255) with false by (symmetry; apply Z.leb_gt; lia).
  now rewrite andb_false_r.
Qed.

Lemma stage2_load_above_255_is_range_error_witness :
  Stage2.second_pass_line Stage2.init 0 1 "LOAD A, 256" =
  (Stage2.add_error (Stage2.at_line 1 "Значение вне диапазона [0-255]")
     Stage2.init, 0).
Proof.
  apply (stage2_load_above_255_is_range_error
           Stage2.init 0 1%nat "LOAD A, 256" "LOAD" "A" "256" [] 0 256).
  - vm_compute. reflexivity.
  - vm_compute. reflexivity.
  - vm_compute. reflexivity.
  - vm_compute. reflexivity.
  - lia.
Defined.

(* ===================================================================== *)
(** * A register as the second operand of LOAD                            *)
(* ===================================================================== *)

(** C10, as stated, fails on stage 1, which looks register names up as they
    are written: the lower-case [b] is rejected as an invalid operand. *)
Lemma stage1_load_lowercase_register_rejected :
  run1 "LOAD A, b" =
  Stage1.Return false
    (Stage1.mkAssembler [0x01; 0] ∅ ["Строка 1: Неверный операнд 'b'"] []).
Proof. vm_compute. reflexivity. Qed.

(** C10 (amended).  In the stage-2 assembler, a line whose tokens are LOAD, a
    register name and a second register name (all in any case) is encoded
    without diagnostic as opcode 1 followed by the two register numbers,
    the second of which lies in 0..3.  In stage 1 a register operand is
    recognised only as written in the table (upper case): the lower-case
    letters a, b, c, d, unless they are labels, end the pass with an
    invalid-operand error. *)
Theorem load_register_operand
    (st : Stage2.Assembler) (addr : Z) (n : nat) (l p0 p1 p2 : string)
    (rest : list string) (r1 r2 : Z)
    (st1 : Stage1.Assembler) (o : string) :
  Stage2.statement_parts l = Some (p0 :: p1 :: p2 :: rest) ->
  Py.upper p0 = "LOAD" ->
  Py.assoc (Py.upper p1) Stage2.registers = Some r1 ->
  Py.assoc (Py.upper p2) Stage2.registers = Some r2 ->
  In (Stage1.clean o) ["a"; "b"; "c"; "d"] ->
  Stage1.labels st1 !! Stage1.clean o = None ->
  (Stage2.second_pass_line st addr n l =
     (Stage2.add_instruction (Stage2.mkInstruction "LOAD" 0x01 [r1; r2] n addr) st,
      addr + 3)
   /\ 0 <= r2 <= 3)
  /\ Stage1.operand_step st1 n o =
     Stage1.Return false
       (Stage1.add_error
          (Stage1.at_line n ("Неверный операнд '" +:+ Stage1.clean o +:+ "'"))
          st1).
Proof.
  intros Hparts Hcmd Hr1 Hr2 Hlow Hlbl. split; [split|].
  - rewrite second_pass_line_parts, Hparts, Hcmd.
    change (Py.assoc "LOAD" Stage2.commands) with (Some 1).
    unfold Stage2.encode.
    change (String.eqb "LOAD" "HALT") with false.
    change (String.eqb "LOAD" "RET") with false.
    change (Py.mem "LOAD" ["PUSH"; "POP"]) with false.
    change (Py.mem "LOAD" ["JMP"; "JZ"; "JNZ"; "CALL"]) with false.
    change (String.eqb "LOAD" "CMP") with false.
    change (Py.mem "LOAD" ["ADD"; "SUB"; "MUL"; "DIV"; "MOD"]) with false.
    change (String.eqb "LOAD" "LOAD") with true.
    cbn [orb]. cbv iota. rewrite Hr1. unfold Stage2.reg_or_literal. rewrite Hr2.
    assert (Hrange : 0 <= r2 <= 3).
    { unfold Stage2.registers in Hr2. cbn [Py.assoc] in Hr2.
      repeat match type of Hr2 with
             | (if ?b then _ else _) = _ => destruct b
             end; inversion Hr2; lia. }
    replace (0 <=? r2) with true by (symmetry; apply Z.leb_le; lia).
    replace (r2 <=? 255) with true by (symmetry; apply Z.leb_le; lia).
    cbn [andb length]. f_equal. lia.
  - unfold Stage2.registers in Hr2. cbn [Py.assoc] in Hr2.
    repeat match type of Hr2 with
           | (if ?b then _ else _) = _ => destruct b
           end; inversion Hr2; lia.
  - unfold Stage1.operand_step. fold (Stage1.clean o). rewrite Hlbl.
    cbn [In] in Hlow.
    destruct Hlow as [<-|[<-|[<-|[<-|[]]]]]; vm_compute; reflexivity.
Qed.

Lemma load_register_operand_witness :
  (Stage2.second_pass_line Stage2.init 0 1 "load a, b" =
     (Stage2.add_instruction (Stage2.mkInstruction "LOAD" 0x01 [0; 1] 1 0)
        Stage2.init, 0 + 3)
   /\ 0 <= 1 <= 3)
  /\ Stage1.operand_step Stage1.init 1 "b," =
     Stage1.Return false
       (Stage1.add_error
          (Stage1.at_line 1 ("Неверный операнд '" +:+ Stage1.clean "b," +:+ "'"))
          Stage1.init).
Proof.
  apply (load_register_operand
           Stage2.init 0 1%nat "load a, b" "load" "a" "b" [] 0 1
           Stage1.init "b,").
  - vm_compute. reflexivity.
  - vm_compute. reflexivity.
  - vm_compute. reflexivity.
  - vm_compute. reflexivity.
  - vm_compute. right. left. reflexivity.
  - vm_compute. reflexivity.
Defined.

(* ===================================================================== *)
(** * STORE with a wide address                                           *)
(* ===================================================================== *)

(** C5, as stated, fails on stage 1, which has no two-byte operand: the
    statement assembles to the three bytes 02 00 2c and a warning. *)
Lemma stage1_store_300_is_three_bytes :
  run1 "STORE A 300" =
  Stage1.Return true
    (Stage1.mkAssembler [0x02; 0x00; 0x2c] ∅ []
       ["Строка 1: Значение 300 больше 255, будет использовано 44"]).
Proof. vm_compute. reflexivity. Qed.

(** C5 (amended).  The stage-2 assembler encodes [STORE A 300] as the four
    bytes 02 00 2c 01: opcode 2, register 0, then 300 little-endian, low
    byte 0x2c and high byte 0x01, with no diagnostic.  The stage-1
    assembler emits one byte per operand: 02 00 2c. *)
Theorem store_wide_address_scenario :
  Stage2.get_machine_code (run2 "STORE A 300") = [0x02; 0x00; 0x2c; 0x01] /\
  Stage2.instructions (run2 "STORE A 300") =
    [ Stage2.mkInstruction "STORE" 0x02
        [0; Z.land 300 0xFF; Z.land (Z.shiftr 300 8) 0xFF] 1 0 ] /\
  Stage2.errors (run2 "STORE A 300") = [] /\
  Stage1.instructions (Stage1.object (run1 "STORE A 300")) = [0x02; 0x00; 0x2c].
Proof. vm_compute. repeat split. Qed.

(* ===================================================================== *)
(** * Duplicate labels                                                    *)
(* ===================================================================== *)

(** C4, as stated, fails on both variants.  Stage 2 has no duplicate check:
    a label declared twice leaves no diagnostic and keeps the address of the
    last declaration.  Stage 1 records the duplicate and returns at once:
    the unknown command on the line after it is never reported. *)
Lemma duplicate_label_not_reported_or_stops :
  Stage2.errors (run2 (Py.join nl ["X:"; "HALT"; "X:"])) = [] /\
  Stage2.labels (run2 (Py.join nl ["X:"; "HALT"; "X:"])) !! "X" = Some 1 /\
  Stage1.returned (run1 (Py.join nl ["X:"; "X:"; "FOO"])) = Some false /\
  Stage1.errors (Stage1.object (run1 (Py.join nl ["X:"; "X:"; "FOO"]))) =
    ["Строка 2: Метка 'X' уже определена"].
Proof. vm_compute. repeat split. Qed.

(** C4 (amended).  In stage 1, when the lines before a declaration scan
    without error and the declared name is a valid identifier already in
    the label table, pass 1 appends exactly the duplicate-label error of
    that line and returns False there, whatever follows.  In stage 2 pass 1
    records no diagnostic for any program: it scans every line and each
    declaration assigns the current address to its name, a later
    declaration replacing an earlier one. *)
Theorem duplicate_label_handling
    (st st' : Stage1.Assembler) (pre rest : list string) (l name : string)
    (st2 : Stage2.Assembler) (lines : list string) :
  Stage1.first_pass st pre = Stage1.Return true st' ->
  Stage1.label_decl l = Some name ->
  Stage1.is_valid_identifier name = true ->
  is_Some (Stage1.labels st' !! name) ->
  Stage1.first_pass st (pre ++ l :: rest) =
    Stage1.Return false
      (Stage1.add_error
         (Stage1.at_line (S (length pre))
            ("Метка '" +:+ name +:+ "' уже определена")) st')
  /\ Stage2.errors (Stage2._first_pass st2 lines) = Stage2.errors st2
  /\ Stage2.labels (Stage2._first_pass st2 lines) =
     foldl Stage2.assign (Stage2.labels st2) (Stage2.decls 0 lines).
Proof.
  intros Hpre Hdecl Hvalid Hin. split; [|split].
  - unfold Stage1.first_pass in *.
    rewrite (for_lines_app _ _ _ first_pass_line_no_return_true _ _ _ Hpre).
    cbn [Stage1.for_lines].
    rewrite (first_pass_line_label _ _ _ _ Hdecl), Hvalid. cbn [negb].
    rewrite (bool_decide_eq_true_2 _ Hin). reflexivity.
  - unfold Stage2._first_pass. now rewrite first_pass_from_frame.
  - unfold Stage2._first_pass. now rewrite first_pass_from_frame.
Qed.

Lemma duplicate_label_handling_witness :
  Stage1.first_pass Stage1.init (["X:"; "HALT"] ++ "X:" :: ["FOO"]) =
    Stage1.Return false
      (Stage1.add_error
         (Stage1.at_line 3 ("Метка '" +:+ "X" +:+ "' уже определена"))
         (Stage1.mkAssembler [0] (<["X" := 0]> ∅) [] []))
  /\ Stage2.errors (Stage2._first_pass Stage2.init ["X:"; "X:"]) =
     Stage2.errors Stage2.init
  /\ Stage2.labels (Stage2._first_pass Stage2.init ["X:"; "X:"]) =
     foldl Stage2.assign (Stage2.labels Stage2.init)
           (Stage2.decls 0 ["X:"; "X:"]).
Proof.
  apply (duplicate_label_handling
           Stage1.init (Stage1.mkAssembler [0] (<["X" := 0]> ∅) [] [])
           ["X:"; "HALT"] ["FOO"] "X:" "X" Stage2.init ["X:"; "X:"]).
  - vm_compute. reflexivity.
  - vm_compute. reflexivity.
  - vm_compute. reflexivity.
  - vm_compute. eexists. reflexivity.
Defined.

(* ===================================================================== *)
(** * Errors of the second pass                                           *)
(* ===================================================================== *)



(* ===================================================================== *)
(** * Label declarations: a colon inside a line                           *)
(* ===================================================================== *)

(** C8, as stated, fails on stage 2: the line [1x: y] does not end with a
    colon, yet pass 1 takes it for a declaration, and registers the name
    [1x], which is not an identifier, without any diagnostic; the mnemonic
    LOAD is registered as a label in the same way. *)
Lemma stage2_label_line_is_any_line_with_colon :
  Py.endswith ":" (Py.strip (Stage2.strip_comment "1x: y")) = false /\
  Py.isidentifier "1x" = false /\
  Stage2.labels (run2 "1x: y") !! "1x" = Some 0 /\
  Stage2.errors (run2 "1x: y") = [] /\
  Stage2.labels (run2 "LOAD:") !! "LOAD" = Some 0 /\
  Stage2.errors (run2 "LOAD:") = [].
Proof. vm_compute. repeat split. Qed.


(* ===================================================================== *)
(** * Running [assemble] twice                                            *)
(* ===================================================================== *)

(** What one call of the stage-2 [assemble] leaves in the object. *)
Lemma stage2_assemble_object (st : Stage2.Assembler) (lines : list string) :
  fst (Stage2.assemble st lines) =
  let lbls := foldl Stage2.assign (Stage2.labels st) (Stage2.decls 0 lines) in
  Stage2.mkAssembler
    (Stage2.instructions st ++ Stage2.pass_emitted lbls 0 1 lines)
    lbls
    (Stage2.errors st ++ Stage2.pass_diagnostics lbls 1 lines)
    lines.
Proof.
  unfold Stage2.assemble. cbn [fst].
  unfold Stage2._second_pass, Stage2._first_pass.
  rewrite second_pass_from_frame, first_pass_from_frame. reflexivity.
Qed.

Lemma get_machine_code_app (st : Stage2.Assembler)
    (xs ys : list Stage2.Instruction) :
  Stage2.instructions st = xs ++ ys ->
  Stage2.get_machine_code st =
  flat_map (fun i => Stage2.opcode i :: Stage2.operands i) xs
  ++ flat_map (fun i => Stage2.opcode i :: Stage2.operands i) ys.
Proof.
  unfold Stage2.get_machine_code. intros ->. apply flat_map_app.
Qed.

Section Stage1_rerun.

Import Stage1.

Lemma operand_step_labels (st : Assembler) (n : nat) (o : string) :
  labels_kept (labels st) (operand_step st n o).
Proof.
  unfold operand_step, labels_kept.
  destruct (labels st !! _); [reflexivity|].
  destruct (Py.assoc _ registers); [reflexivity|].
  destruct (is_valid_number _); [|reflexivity].
  destruct (Py.int 0 _) as [z|e]; [|reflexivity].
  destruct (255 <? z); [|reflexivity].
  destruct (Py.str_int z); reflexivity.
Qed.

Lemma for_operands_labels (ops : list string) :
  forall (st : Assembler) (n : nat),
    labels_kept (labels st) (for_operands st n ops).
Proof.
  induction ops as [|o rest IH]; intros st n; [reflexivity|].
  cbn [for_operands]. pose proof (operand_step_labels st n o) as H.
  destruct (operand_step st n o) as [st1|b st1|e st1];
    unfold labels_kept in *; cbn [object] in *.
  - rewrite <- H. apply IH.
  - exact H.
  - exact H.
Qed.

Lemma second_pass_line_labels (st : Assembler) (n : nat) (l : string) :
  labels_kept (labels st) (second_pass_line st n l).
Proof.
  unfold second_pass_line.
  destruct (_ || _); [reflexivity|].
  destruct (Py.split _) as [|p0 ops]; [reflexivity|].
  destruct (Py.assoc _ commands); [|reflexivity].
  apply (for_operands_labels ops (push _ st)).
Qed.

Lemma for_lines_labels (body : Assembler -> nat -> string -> control)
    (lines : list string) :
  (forall st n l, labels_kept (labels st) (body st n l)) ->
  forall (st : Assembler) (n : nat),
    labels_kept (labels st) (for_lines body st n lines).
Proof.
  intros Hbody. induction lines as [|l rest IH]; intros st n; [reflexivity|].
  cbn [for_lines]. pose proof (Hbody st n l) as H.
  destruct (body st n l) as [st1|b st1|e st1];
    unfold labels_kept in *; cbn [object] in *.
  - rewrite <- H. apply IH.
  - exact H.
  - exact H.
Qed.

(** Pass 2 never writes the label table. *)
Lemma second_pass_labels (st : Assembler) (lines : list string) :
  labels (object (second_pass st lines)) = labels st.
Proof.
  unfold second_pass.
  apply (for_lines_labels _ lines second_pass_line_labels
           (set_instructions [] st)).
Qed.

(** A pass 1 that reaches the end has only added labels. *)
Lemma first_pass_grows (lines : list string) :
  forall (st : Assembler) (n : nat) (st' : Assembler) (k : string),
    for_lines first_pass_line st n lines = Return true st' ->
    is_Some (labels st !! k) -> is_Some (labels st' !! k).
Proof.
  induction lines as [|l rest IH]; intros st n st' k H Hk.
  - cbn in H. now injection H as <-.
  - cbn [for_lines] in H.
    destruct (label_decl l) as [name|] eqn:E.
    + rewrite (first_pass_line_label _ _ _ _ E) in H.
      destruct (negb _); [discriminate|].
      destruct (bool_decide _); [discriminate|].
      apply (IH _ _ _ k H). cbn [labels set_label].
      rewrite lookup_insert_is_Some. destruct (decide (name = k)); auto.
    + rewrite (first_pass_line_other _ _ _ E) in H.
      destruct (Py.is_empty _); [now apply (IH _ _ _ k H)|].
      destruct (Py.split _) as [|p0 ps]; [now apply (IH _ _ _ k H)|].
      destruct (Py.assoc _ _); [|discriminate].
      now apply (IH _ _ _ k H).
Qed.

(** Pass 1 run again on an object that already holds the labels of a
    successful run stops at the first declaration. *)
Lemma first_pass_rerun (lines : list string) :
  forall (s : Assembler) (n : nat) (sa t : Assembler),
    for_lines first_pass_line s n lines = Return true sa ->
    labels sa <> labels s ->
    (forall k, is_Some (labels sa !! k) -> is_Some (labels t !! k)) ->
    exists (t' : Assembler) (m : nat) (name : string),
      for_lines first_pass_line t n lines = Return false t' /\
      errors t' = errors t ++ [at_line m ("Метка '" +:+ name +:+ "' уже определена")].
Proof.
  induction lines as [|l rest IH]; intros s n sa t H Hnew Hsub.
  - cbn in H. injection H as <-. now destruct Hnew.
  - cbn [for_lines] in *.
    destruct (label_decl l) as [name|] eqn:E.
    + rewrite (first_pass_line_label s _ _ _ E) in H.
      rewrite (first_pass_line_label t _ _ _ E).
      destruct (negb (is_valid_identifier name)); [discriminate H|].
      destruct (bool_decide (is_Some (labels s !! name))); [discriminate H|].
      assert (Hin : is_Some (labels t !! name)).
      { apply Hsub. apply (first_pass_grows _ _ _ _ name H).
        cbn [labels set_label]. rewrite lookup_insert_is_Some. auto. }
      rewrite (bool_decide_eq_true_2 _ Hin).
      eexists _, n, name. split; reflexivity.
    + rewrite (first_pass_line_other s _ _ E) in H.
      rewrite (first_pass_line_other t _ _ E).
      destruct (Py.is_empty (logical l)); [now apply (IH s _ sa t)|].
      destruct (Py.split (logical l)) as [|p0 ps]; [now apply (IH s _ sa t)|].
      destruct (Py.assoc (Py.upper p0) commands); [|discriminate H].
      apply (IH (push 0 s) _ sa (push 0 t)); assumption.
Qed.

End Stage1_rerun.

(** C9, as stated, fails for a second call on the same object.  In stage 2
    nothing is cleared between calls: after two calls on [HALT] the machine
    code is 10 10, not 10.  In stage 1 the label table is kept: the program
    [X:] assembles the first time and fails the second with a
    duplicate-label error. *)
Lemma second_call_on_same_object_differs :
  Stage2.get_machine_code (run2 "HALT") = [0x10] /\
  Stage2.get_machine_code
    (fst (Stage2.assemble (run2 "HALT") (Py.readlines "HALT"))) = [0x10; 0x10] /\
  Stage1.returned (run1 "X:") = Some true /\
  Stage1.returned (Stage1.assemble (Stage1.object (run1 "X:")) "X:") = Some false /\
  Stage1.errors (Stage1.object (Stage1.assemble (Stage1.object (run1 "X:")) "X:"))
    = ["Строка 1: Метка 'X' уже определена"].
Proof. vm_compute. repeat split. Qed.

(** C9 (amended).  On a freshly constructed object the result of stage 2 is
    a function of the source alone: the instructions and the diagnostics
    are those the lines give against the label table the lines define, so
    two runs on fresh objects agree byte for byte.  A second call on the
    same object does not behave as the first.  In stage 2 it appends: the
    machine code and the diagnostic list after the second call are those
    of the first call written twice (the label table is unchanged).  In
    stage 1 the label table survives the call: when the first call on a
    fresh object succeeded and left at least one label, the second call on
    that object returns False with one more error, a duplicate-label
    error. *)
Theorem assemble_twice
    (lines : list string) (src : string) (st1 : Stage1.Assembler) :
  Stage1.assemble Stage1.init src = Stage1.Return true st1 ->
  Stage1.labels st1 <> ∅ ->
  (let lbls := foldl Stage2.assign ∅ (Stage2.decls 0 lines) in
   let o1 := fst (Stage2.assemble Stage2.init lines) in
   let o2 := fst (Stage2.assemble o1 lines) in
   Stage2.instructions o1 = Stage2.pass_emitted lbls 0 1 lines /\
   Stage2.errors o1 = Stage2.pass_diagnostics lbls 1 lines /\
   Stage2.labels o1 = lbls /\
   Stage2.get_machine_code o2 =
     Stage2.get_machine_code o1 ++ Stage2.get_machine_code o1 /\
   Stage2.errors o2 = Stage2.errors o1 ++ Stage2.errors o1 /\
   Stage2.labels o2 = Stage2.labels o1)
  /\ exists (st2 : Stage1.Assembler) (m : nat) (name : string),
       Stage1.assemble st1 src = Stage1.Return false st2 /\
       Stage1.errors st2 =
         Stage1.errors st1
         ++ [Stage1.at_line m ("Метка '" +:+ name +:+ "' уже определена")].
Proof.
  intros Hrun Hlbl. split.
  - cbv zeta. rewrite !stage2_assemble_object. cbv zeta.
    cbn [Stage2.instructions Stage2.errors Stage2.labels Stage2.init app].
    rewrite foldl_assign_twice.
    repeat split.
    unfold Stage2.get_machine_code.
    cbn [Stage2.instructions]. apply flat_map_app.
  - unfold Stage1.assemble in *.
    set (ls := Py.split_on Py.LF src) in *.
    destruct (Stage1.first_pass (Stage1.set_instructions [] Stage1.init) ls)
      as [sa|[|] sa|e sa] eqn:E1; try discriminate Hrun.
    pose proof (second_pass_labels (Stage1.set_instructions [] sa) ls) as Hkeep.
    destruct (Stage1.second_pass (Stage1.set_instructions [] sa) ls)
      as [sb|[|] sb|e sb] eqn:E2; try discriminate Hrun.
    injection Hrun as ->. cbn [Stage1.object] in Hkeep.
    change (Stage1.labels (Stage1.set_instructions [] sa))
      with (Stage1.labels sa) in Hkeep.
    destruct (first_pass_rerun ls _ _ sa (Stage1.set_instructions [] st1) E1)
      as (t' & m & name & Hrerun & Herrs).
    + cbn. now rewrite <- Hkeep.
    + intros k. cbn [Stage1.labels Stage1.set_instructions].
      now rewrite Hkeep.
    + unfold Stage1.first_pass. rewrite Hrerun.
      exists t', m, name. split; [reflexivity|exact Herrs].
Qed.

Lemma assemble_twice_witness :
  exists (st2 : Stage1.Assembler) (m : nat) (name : string),
    Stage1.assemble (Stage1.mkAssembler [] (<["X" := 0]> ∅) [] []) "X:" =
      Stage1.Return false st2 /\
    Stage1.errors st2 =
      Stage1.errors (Stage1.mkAssembler [] (<["X" := 0]> ∅) [] [])
      ++ [Stage1.at_line m ("Метка '" +:+ name +:+ "' уже определена")].
Proof.
  refine (proj2 (assemble_twice ["HALT"] "X:"
                   (Stage1.mkAssembler [] (<["X" := 0]> ∅) [] []) _ _)).
  - vm_compute. reflexivity.
  - intros H. apply (f_equal (fun m : gmap string Z => m !! "X")) in H.
    vm_compute in H. discriminate H.
Defined.

(* ===================================================================== *)
(** * Stage 2: the instruction records                                    *)
(* ===================================================================== *)

Section Stage2_records.

Import Stage2.

(** What a line emits: nothing, leaving the address, or one record at the
    current address, moving the address past its bytes. *)
Lemma line_outcome (lbls : gmap string Z) (addr : Z) (n : nat) (l : string) :
  (emitted lbls addr n l = [] /\ next_address lbls addr n l = addr) \/
  exists p0 ps opc ops,
    statement_parts l = Some (p0 :: ps) /\
    Py.assoc (Py.upper p0) commands = Some opc /\
    encode lbls n (Py.upper p0) (p0 :: ps) = Encoded ops /\
    emitted lbls addr n l = [mkInstruction (Py.upper p0) opc ops n addr] /\
    next_address lbls addr n l = addr + 1 + Z.of_nat (length ops) /\
    diagnostics lbls n l = [].
Proof.
  unfold emitted, next_address, diagnostics.
  rewrite (second_pass_line_errors_addr _ 0 addr).
  rewrite !second_pass_line_parts. cbn [labels].
  destruct (statement_parts l) as [[|p0 ps]|]; [now left| |now left].
  destruct (Py.assoc (Py.upper p0) commands) as [opc|] eqn:Ec; [|now left].
  destruct (encode lbls n (Py.upper p0) (p0 :: ps)) as [ops|msg|e] eqn:Ee;
    [|now left|now left].
  right. exists p0, ps, opc, ops.
  split; [reflexivity|]. split; [exact Ec|]. split; [exact Ee|].
  split; [reflexivity|]. split; reflexivity.
Qed.

Lemma register_index_range (r : string) (i : Z) :
  Py.assoc r registers = Some i -> 0 <= i <= 3.
Proof.
  unfold registers. cbn [Py.assoc]. intros H.
  repeat match type of H with
         | (if ?b then _ else _) = _ => destruct b
         end; inversion H; lia.
Qed.

Lemma opcode_range (c : string) (opc : Z) :
  Py.assoc c commands = Some opc -> 1 <= opc <= 16.
Proof.
  unfold commands. cbn [Py.assoc]. intros H.
  repeat match type of H with
         | (if ?b then _ else _) = _ => destruct b
         end; inversion H; lia.
Qed.

Lemma is_byte_range (z : Z) : is_byte z = true <-> 0 <= z <= 255.
Proof. unfold is_byte. rewrite andb_true_iff, !Z.leb_le. reflexivity. Qed.

Lemma land_255_range (z : Z) : 0 <= Z.land z 255 <= 255.
Proof.
  assert (Z.land z 255 = z mod 256) as ->.
  { change 255 with (Z.ones 8). now rewrite Z.land_ones by lia. }
  pose proof (Z.mod_pos_bound z 256 ltac:(lia)). lia.
Qed.

(** The operands an accepted line stores: their number is fixed by the
    command, and outside the jump group each of them is a byte. *)
Lemma encode_operands (lbls : gmap string Z) (n : nat) (cmd : string)
    (parts : list string) (ops : list Z) :
  encode lbls n cmd parts = Encoded ops ->
  length ops = operand_count cmd /\
  (is_jump cmd = false -> Forall (fun z => 0 <= z <= 255) ops).
Proof.
  unfold encode, operand_count, is_jump.
  destruct (String.eqb cmd "HALT" || String.eqb cmd "RET").
  { intros [= <-]. split; [reflexivity|constructor]. }
  destruct (Py.mem cmd ["PUSH"; "POP"]).
  { destruct parts as [|? [|p1 ?]]; try discriminate.
    destruct (Py.is_empty (Py.upper p1)); [discriminate|].
    destruct (Py.assoc (Py.upper p1) registers) as [i|] eqn:E; [|discriminate].
    intros [= <-]. apply register_index_range in E.
    split; [reflexivity|]. intros _. repeat constructor; lia. }
  destruct (Py.mem cmd ["JMP"; "JZ"; "JNZ"; "CALL"]).
  { destruct parts as [|? [|label ?]]; try discriminate.
    destruct (Py.is_empty label); [discriminate|].
    destruct (lbls !! label).
    - intros [= <-]. split; [reflexivity|discriminate].
    - destruct (Py.isdigit label); [|discriminate].
      destruct (Py.int 10 label); [|discriminate].
      intros [= <-]. split; [reflexivity|discriminate]. }
  destruct (String.eqb cmd "CMP").
  { destruct parts as [|? [|p1 [|p2 ?]]]; try discriminate.
    destruct (Py.assoc (Py.upper p1) registers) as [i|] eqn:E1; [|discriminate].
    destruct (Py.assoc (Py.upper p2) registers) as [j|] eqn:E2; [|discriminate].
    intros [= <-]. apply register_index_range in E1, E2.
    split; [reflexivity|]. intros _. repeat constructor; lia. }
  destruct (Py.mem cmd ["ADD"; "SUB"; "MUL"; "DIV"; "MOD"]).
  { destruct parts as [|? [|p1 [|p2 ?]]]; try discriminate.
    destruct (Py.assoc (Py.upper p1) registers) as [i|] eqn:E1; [|discriminate].
    destruct (reg_or_literal p2) as [v|]; [|discriminate].
    destruct ((0 <=? v) && (v <=? 255)) eqn:Ev; [|discriminate].
    intros [= <-]. apply register_index_range in E1.
    apply (is_byte_range v) in Ev.
    split; [reflexivity|]. intros _. repeat constructor; lia. }
  destruct (String.eqb cmd "LOAD").
  { destruct parts as [|? [|p1 [|p2 ?]]]; try discriminate.
    destruct (Py.assoc (Py.upper p1) registers) as [i|] eqn:E1; [|discriminate].
    destruct (reg_or_literal p2) as [v|]; [|discriminate].
    destruct ((0 <=? v) && (v <=? 255)) eqn:Ev; [|discriminate].
    intros [= <-]. apply register_index_range in E1.
    apply (is_byte_range v) in Ev.
    split; [reflexivity|]. intros _. repeat constructor; lia. }
  destruct (String.eqb cmd "STORE").
  { destruct parts as [|? [|p1 [|p2 ?]]]; try discriminate.
    destruct (Py.assoc (Py.upper p1) registers) as [i|] eqn:E1; [|discriminate].
    destruct (literal p2) as [v|]; [|discriminate].
    destruct ((0 <=? v) && (v <=? 65535)); [|discriminate].
    intros [= <-]. apply register_index_range in E1.
    pose proof (land_255_range v). pose proof (land_255_range (Z.shiftr v 8)).
    split; [reflexivity|]. intros _. repeat constructor; lia. }
  intros [= <-]. split; [reflexivity|constructor].
Qed.

(** Every record of a pass is well formed. *)
Lemma pass_emitted_well_formed (lines : list string) :
  forall (lbls : gmap string Z) (addr : Z) (n : nat) (i : Instruction),
    In i (pass_emitted lbls addr n lines) ->
    Py.assoc (mnemonic i) commands = Some (opcode i) /\
    length (operands i) = operand_count (mnemonic i) /\
    (is_jump (mnemonic i) = false ->
     Forall (fun z => 0 <= z <= 255) (instruction_bytes i)).
Proof.
  induction lines as [|l rest IH]; intros lbls addr n i Hin; [destruct Hin|].
  cbn [pass_emitted] in Hin. apply in_app_or in Hin as [Hin|Hin].
  - destruct (line_outcome lbls addr n l)
      as [[He _]|(p0 & ps & opc & ops & _ & Hc & Henc & He & _)];
      rewrite He in Hin; [destruct Hin|].
    destruct Hin as [<-|[]]. cbn [mnemonic opcode operands instruction_bytes].
    destruct (encode_operands _ _ _ _ _ Henc) as [Hlen Hbytes].
    split; [exact Hc|split; [exact Hlen|]].
    intros Hj. constructor; [|now apply Hbytes].
    apply opcode_range in Hc. cbn [opcode]. lia.
  - apply (IH _ _ _ _ Hin).
Qed.

(** The address of a record is the address at the start of the pass plus
    the bytes of the records before it. *)
Lemma pass_emitted_addresses (lines : list string) :
  forall (lbls : gmap string Z) (addr : Z) (n : nat)
         (pre post : list Instruction) (i : Instruction),
    pass_emitted lbls addr n lines = pre ++ i :: post ->
    address i = addr + Z.of_nat (length (flat_map instruction_bytes pre)).
Proof.
  induction lines as [|l rest IH]; intros lbls addr n pre post i H.
  - destruct pre; discriminate H.
  - cbn [pass_emitted] in H.
    destruct (line_outcome lbls addr n l)
      as [[He Hn]|(p0 & ps & opc & ops & _ & _ & _ & He & Hn & _)];
      rewrite He, Hn in H.
    + apply (IH _ _ _ _ _ _ H).
    + cbn [app] in H. destruct pre as [|i0 pre'].
      * injection H as <- _. cbn. symmetry. apply Z.add_0_r.
      * injection H as <- H. rewrite (IH _ _ _ _ _ _ H).
        cbn [flat_map]. rewrite length_app. unfold instruction_bytes.
        cbn [length opcode operands]. lia.
Qed.

(** The address a pass ends with is the address it starts with plus the
    bytes it emits. *)
Lemma second_pass_final_address (lines : list string) :
  forall (st : Assembler) (addr : Z) (n : nat),
    snd (second_pass_from st addr n lines) =
    addr + Z.of_nat (length (flat_map instruction_bytes
                               (pass_emitted (labels st) addr n lines))).
Proof.
  induction lines as [|l rest IH]; intros st addr n.
  - cbn. lia.
  - cbn [second_pass_from pass_emitted].
    rewrite second_pass_line_frame, IH. cbn [labels].
    rewrite flat_map_app, length_app.
    destruct (line_outcome (labels st) addr n l)
      as [[He Hn]|(p0 & ps & opc & ops & _ & _ & _ & He & Hn & _)];
      rewrite He, Hn; cbn [flat_map app length]; [lia|].
    unfold instruction_bytes. cbn [length opcode operands app].
    rewrite app_nil_r. lia.
Qed.

End Stage2_records.

(* ===================================================================== *)
(** * Stage 2: what a run on a fresh object produces                      *)
(* ===================================================================== *)

Lemma fresh_run_instructions (lines : list string) :
  Stage2.instructions (fst (Stage2.assemble Stage2.init lines)) =
  Stage2.pass_emitted (foldl Stage2.assign ∅ (Stage2.decls 0 lines)) 0 1 lines.
Proof. now rewrite stage2_assemble_object. Qed.

Lemma instruction_records_are_well_formed_aux
    (lines : list string) (i : Stage2.Instruction) :
  In i (Stage2.instructions (fst (Stage2.assemble Stage2.init lines))) ->
  Py.assoc (Stage2.mnemonic i) Stage2.commands = Some (Stage2.opcode i) /\
  length (Stage2.operands i) = Stage2.operand_count (Stage2.mnemonic i).
Proof.
  rewrite fresh_run_instructions. intros H.
  destruct (pass_emitted_well_formed _ _ _ _ _ H) as (H1 & H2 & _).
  now split.
Qed.

(** X1.  In the instruction list of a run on a fresh object, the address of
    every record is the number of bytes of the records before it; hence
    the record that follows starts where this one ends, at its address plus
    one plus the number of its operands. *)
Theorem instruction_addresses_are_cumulative
    (lines : list string) (pre post : list Stage2.Instruction)
    (i : Stage2.Instruction) :
  Stage2.instructions (fst (Stage2.assemble Stage2.init lines)) = pre ++ i :: post ->
  Stage2.address i =
    Z.of_nat (length (flat_map Stage2.instruction_bytes pre))
  /\ forall j post', post = j :: post' ->
       Stage2.address j =
       Stage2.address i + 1 + Z.of_nat (length (Stage2.operands i)).
Proof.
  rewrite fresh_run_instructions. intros H. split.
  - now rewrite (pass_emitted_addresses _ _ _ _ _ _ _ H).
  - intros j post' ->.
    rewrite (pass_emitted_addresses _ _ _ _ _ _ _ H).
    replace (pre ++ i :: j :: post') with ((pre ++ [i]) ++ j :: post') in H
      by now rewrite <- app_assoc.
    rewrite (pass_emitted_addresses _ _ _ _ _ _ _ H).
    rewrite flat_map_app, length_app. cbn [flat_map].
    rewrite app_nil_r. unfold Stage2.instruction_bytes at 2. cbn [length]. lia.
Qed.

Lemma instruction_addresses_are_cumulative_witness :
  Stage2.address (Stage2.mkInstruction "HALT" 0x10 [] 2 3) =
    Z.of_nat (length (flat_map Stage2.instruction_bytes
                        [Stage2.mkInstruction "LOAD" 0x01 [0; 5] 1 0])).
Proof.
  apply (instruction_addresses_are_cumulative
           ["LOAD A 5"; "HALT"]
           [Stage2.mkInstruction "LOAD" 0x01 [0; 5] 1 0] []
           (Stage2.mkInstruction "HALT" 0x10 [] 2 3)).
  vm_compute. reflexivity.
Defined.

(** X2.  Every record of a run on a fresh object carries the opcode that
    the command table gives for its mnemonic, and as many operands as the
    command takes: none for HALT and RET, one for PUSH, POP and the jump
    group, two for CMP, LOAD and the arithmetic group, three for STORE. *)
Theorem instruction_records_are_well_formed
    (lines : list string) (i : Stage2.Instruction) :
  In i (Stage2.instructions (fst (Stage2.assemble Stage2.init lines))) ->
  Py.assoc (Stage2.mnemonic i) Stage2.commands = Some (Stage2.opcode i) /\
  length (Stage2.operands i) = Stage2.operand_count (Stage2.mnemonic i).
Proof.
  apply instruction_records_are_well_formed_aux.
Qed.

Lemma instruction_records_are_well_formed_witness :
  Py.assoc "STORE" Stage2.commands = Some 2 /\
  length [0; 0x2c; 0x01] = Stage2.operand_count "STORE".
Proof.
  apply (instruction_records_are_well_formed ["STORE A 300"]
           (Stage2.mkInstruction "STORE" 0x02 [0; 0x2c; 0x01] 1 0)).
  vm_compute. left. reflexivity.
Defined.

(** X3.  Outside the jump and call group, every record of a run on a fresh
    object consists of bytes: its opcode and each of its operands lie in
    0..255. *)
Theorem non_jump_records_are_bytes
    (lines : list string) (i : Stage2.Instruction) :
  In i (Stage2.instructions (fst (Stage2.assemble Stage2.init lines))) ->
  Stage2.is_jump (Stage2.mnemonic i) = false ->
  Forall (fun z => 0 <= z <= 255) (Stage2.instruction_bytes i).
Proof.
  rewrite fresh_run_instructions. intros H.
  destruct (pass_emitted_well_formed _ _ _ _ _ H) as (_ & _ & H3). exact H3.
Qed.

Lemma non_jump_records_are_bytes_witness :
  Forall (fun z => 0 <= z <= 255)
    (Stage2.instruction_bytes
       (Stage2.mkInstruction "STORE" 0x02 [0; 0xff; 0xff] 1 0)).
Proof.
  apply (non_jump_records_are_bytes ["STORE A 0xffff"]).
  - vm_compute. left. reflexivity.
  - vm_compute. reflexivity.
Defined.

Lemma operand_count_le_3 (c : string) : (Stage2.operand_count c <= 3)%nat.
Proof.
  unfold Stage2.operand_count.
  repeat match goal with
         | |- context [if ?b then _ else _] => destruct b
         end; lia.
Qed.

Lemma machine_code_length_bounds (xs : list Stage2.Instruction) :
  (forall i, In i xs -> (length (Stage2.operands i) <= 3)%nat) ->
  (length xs <= length (flat_map Stage2.instruction_bytes xs) <= 4 * length xs)%nat.
Proof.
  induction xs as [|i xs IH]; intros H; [cbn; lia|].
  cbn [flat_map]. rewrite length_app. unfold Stage2.instruction_bytes at 1 3.
  cbn [length].
  pose proof (H i (or_introl eq_refl)).
  pose proof (IH (fun j Hj => H j (or_intror Hj))). lia.
Qed.

(** X4.  For a run on a fresh object, the byte count that [get_statistics]
    reports lies between the instruction count and four times the
    instruction count: an instruction is never empty and never longer than
    four bytes. *)
Theorem statistics_byte_count_bounds (lines : list string) :
  let stats := Stage2.get_statistics (fst (Stage2.assemble Stage2.init lines)) in
  (Stage2.num_instructions stats <= Stage2.num_bytes stats
   <= 4 * Stage2.num_instructions stats)%nat.
Proof.
  cbv zeta. unfold Stage2.get_statistics.
  cbn [Stage2.num_instructions Stage2.num_bytes].
  apply machine_code_length_bounds. intros i Hi.
  destruct (instruction_records_are_well_formed_aux lines i Hi) as [_ ->].
  apply operand_count_le_3.
Qed.

Lemma forallb_is_byte (xs : list Z) :
  forallb Stage2.is_byte xs = true <-> Forall (fun z => 0 <= z <= 255) xs.
Proof.
  rewrite forallb_forall, List.Forall_forall.
  split; intros H z Hz; apply is_byte_range, H, Hz.
Qed.

(** X5.  [save_to_binary_file] on the object of a fresh run writes exactly
    the machine code and returns its length when the operand of every jump
    or call record is a byte; otherwise [bytes] raises a [ValueError] that
    the method does not catch.  Only a jump or call record can make it
    fail. *)
Theorem save_to_binary_file_outcome (lines : list string) :
  let st := fst (Stage2.assemble Stage2.init lines) in
  let jumps_fit :=
    forall i, In i (Stage2.instructions st) ->
              Stage2.is_jump (Stage2.mnemonic i) = true ->
              Forall (fun z => 0 <= z <= 255) (Stage2.operands i) in
  (jumps_fit ->
   Stage2.save_to_binary_file st =
   inl (Stage2.get_machine_code st,
        Z.of_nat (length (Stage2.get_machine_code st))))
  /\ (~ jumps_fit ->
      Stage2.save_to_binary_file st =
      inr (Py.ValueError "bytes must be in range(0, 256)")).
Proof.
  cbv zeta. set (st := fst (Stage2.assemble Stage2.init lines)).
  assert (Hiff : forallb Stage2.is_byte (Stage2.get_machine_code st) = true <->
                 forall i, In i (Stage2.instructions st) ->
                           Stage2.is_jump (Stage2.mnemonic i) = true ->
                           Forall (fun z => 0 <= z <= 255) (Stage2.operands i)).
  { rewrite forallb_is_byte. unfold Stage2.get_machine_code.
    rewrite List.Forall_flat_map, List.Forall_forall. split.
    - intros H i Hi _. specialize (H i Hi). now inversion H.
    - intros H i Hi.
      destruct (Stage2.is_jump (Stage2.mnemonic i)) eqn:Ej.
      + constructor; [|now apply H].
        destruct (instruction_records_are_well_formed_aux lines i Hi) as [Hc _].
        apply opcode_range in Hc. lia.
      + unfold st in Hi. rewrite fresh_run_instructions in Hi.
        destruct (pass_emitted_well_formed _ _ _ _ _ Hi) as (_ & _ & H3).
        apply (H3 Ej). }
  unfold Stage2.save_to_binary_file, Stage2.to_bytes.
  destruct (forallb Stage2.is_byte (Stage2.get_machine_code st)); split.
  - reflexivity.
  - intros Hn. destruct Hn. now apply Hiff.
  - intros Hy. apply Hiff in Hy. discriminate Hy.
  - reflexivity.
Qed.

(** X6.  The two passes of stage 2 write disjoint parts of the object:
    pass 1 changes nothing but the label table, and pass 2 never touches
    the label table and only appends to the instruction list and to the
    diagnostics. *)
Theorem passes_write_disjoint_fields (st : Stage2.Assembler) (lines : list string) :
  (Stage2.instructions (Stage2._first_pass st lines) = Stage2.instructions st /\
   Stage2.errors (Stage2._first_pass st lines) = Stage2.errors st /\
   Stage2.source_lines (Stage2._first_pass st lines) = Stage2.source_lines st)
  /\ (Stage2.labels (Stage2._second_pass st lines) = Stage2.labels st /\
      Stage2.source_lines (Stage2._second_pass st lines) = Stage2.source_lines st /\
      (exists added, Stage2.instructions (Stage2._second_pass st lines) =
                     Stage2.instructions st ++ added) /\
      (exists added, Stage2.errors (Stage2._second_pass st lines) =
                     Stage2.errors st ++ added)).
Proof.
  unfold Stage2._first_pass, Stage2._second_pass.
  rewrite first_pass_from_frame, second_pass_from_frame.
  cbn [Stage2.instructions Stage2.labels Stage2.errors Stage2.source_lines].
  repeat split; eexists; reflexivity.
Qed.

Lemma before_append (c : ascii) (l r : string) :
  Py.before c (l +:+ String c r) = Py.before c l.
Proof.
  induction l as [|d l IH].
  - change (Py.before c (String c r) = EmptyString).
    cbn [Py.before]. now rewrite Ascii.eqb_refl.
  - rewrite append_cons. cbn [Py.before].
    destruct (Ascii.eqb c d); [reflexivity|now rewrite IH].
Qed.

Lemma before_absent (c : ascii) (l : string) :
  Py.contains c l = false -> Py.before c l = l.
Proof.
  induction l as [|d l IH]; [reflexivity|]. cbn.
  destruct (Ascii.eqb c d); [discriminate|]. intros H. now rewrite IH.
Qed.

Lemma stage2_strip_comment_before (l : string) :
  Stage2.strip_comment l = Py.before ";" l.
Proof.
  unfold Stage2.strip_comment.
  destruct (Py.contains ";" l) eqn:E; [reflexivity|].
  symmetry. now apply before_absent.
Qed.

Lemma stage1_strip_comment_before (l : string) :
  Stage1.strip_comment l = Py.before ";" l.
Proof.
  unfold Stage1.strip_comment. rewrite split_on_hd.
  destruct (Py.contains ";" l) eqn:E; [reflexivity|].
  symmetry. now apply before_absent.
Qed.

(** X7.  Everything from the first semicolon of a line on is ignored by
    both passes of both assemblers: a line followed by a semicolon and any
    text is processed exactly as the line alone. *)
Theorem text_after_semicolon_is_ignored
    (l c : string) (n : nat) (addr : Z)
    (st2 : Stage2.Assembler) (st1 : Stage1.Assembler) :
  Stage2.first_pass_line st2 addr (l +:+ String ";" c) =
    Stage2.first_pass_line st2 addr l
  /\ Stage2.second_pass_line st2 addr n (l +:+ String ";" c) =
     Stage2.second_pass_line st2 addr n l
  /\ Stage1.first_pass_line st1 n (l +:+ String ";" c) =
     Stage1.first_pass_line st1 n l
  /\ Stage1.second_pass_line st1 n (l +:+ String ";" c) =
     Stage1.second_pass_line st1 n l.
Proof.
  assert (H2 : Stage2.strip_comment (l +:+ String ";" c) = Stage2.strip_comment l)
    by now rewrite !stage2_strip_comment_before, before_append.
  assert (H1 : Stage1.strip_comment (l +:+ String ";" c) = Stage1.strip_comment l)
    by now rewrite !stage1_strip_comment_before, before_append.
  unfold Stage2.first_pass_line, Stage2.second_pass_line,
    Stage1.first_pass_line, Stage1.second_pass_line.
  rewrite H1, H2. repeat split.
Qed.

Lemma save_to_binary_file_outcome_witness :
  Stage2.save_to_binary_file (fst (Stage2.assemble Stage2.init ["JMP 7"; "HALT"])) =
  inl ([0x08; 7; 0x10], 3).
Proof.
  apply (proj1 (save_to_binary_file_outcome ["JMP 7"; "HALT"])).
  intros i Hi Hj. vm_compute in Hi.
  destruct Hi as [<-|[<-|[]]].
  - repeat constructor; lia.
  - vm_compute in Hj. discriminate Hj.
Defined.

(** X8.  STORE keeps the whole address: for a literal in 0..65535 the two
    address operands are bytes, low byte first, and the address is the low
    byte plus 256 times the high byte.  The record is four bytes long. *)
Theorem store_address_is_little_endian
    (st : Stage2.Assembler) (addr : Z) (n : nat) (l p0 p1 a : string)
    (rest : list string) (r v : Z) :
  Stage2.statement_parts l = Some (p0 :: p1 :: a :: rest) ->
  Py.upper p0 = "STORE" ->
  Py.assoc (Py.upper p1) Stage2.registers = Some r ->
  Stage2.literal a = inl v ->
  0 <= v <= 65535 ->
  exists lo hi,
    Stage2.second_pass_line st addr n l =
      (Stage2.add_instruction
         (Stage2.mkInstruction "STORE" 0x02 [r; lo; hi] n addr) st,
       addr + 4)
    /\ 0 <= lo <= 255 /\ 0 <= hi <= 255 /\ lo + 256 * hi = v.
Proof.
  intros Hparts Hcmd Hreg Hval Hrange.
  exists (Z.land v 0xFF), (Z.land (Z.shiftr v 8) 0xFF).
  split; [|split; [apply land_255_range|split; [apply land_255_range|]]].
  - rewrite second_pass_line_parts, Hparts, Hcmd.
    change (Py.assoc "STORE" Stage2.commands) with (Some 2).
    unfold Stage2.encode.
    change (String.eqb "STORE" "HALT") with false.
    change (String.eqb "STORE" "RET") with false.
    change (Py.mem "STORE" ["PUSH"; "POP"]) with false.
    change (Py.mem "STORE" ["JMP"; "JZ"; "JNZ"; "CALL"]) with false.
    change (String.eqb "STORE" "CMP") with false.
    change (Py.mem "STORE" ["ADD"; "SUB"; "MUL"; "DIV"; "MOD"]) with false.
    change (String.eqb "STORE" "LOAD") with false.
    change (String.eqb "STORE" "STORE") with true.
    cbn [orb]. cbv iota. rewrite Hreg, Hval.
    replace (0 <=? v) with true by (symmetry; apply Z.leb_le; lia).
    replace (v <=? 65535) with true by (symmetry; apply Z.leb_le; lia).
    cbn [andb length]. f_equal. lia.
  - assert (Hlo : Z.land v 255 = v mod 256).
    { change 255 with (Z.ones 8). now rewrite Z.land_ones by lia. }
    assert (Hhi : Z.land (Z.shiftr v 8) 255 = (v / 256) mod 256).
    { change 255 with (Z.ones 8). rewrite Z.land_ones by lia.
      now rewrite Z.shiftr_div_pow2 by lia. }
    rewrite Hlo, Hhi.
    assert (0 <= v / 256 < 256)
      by (split; [apply Z.div_pos; lia|apply Z.div_lt_upper_bound; lia]).
    rewrite (Z.mod_small (v / 256) 256) by lia.
    pose proof (Z.div_mod v 256 ltac:(lia)). lia.
Qed.

Lemma store_address_is_little_endian_witness :
  exists lo hi,
    Stage2.second_pass_line Stage2.init 0 1 "store b, 0x1234" =
      (Stage2.add_instruction
         (Stage2.mkInstruction "STORE" 0x02 [1; lo; hi] 1 0) Stage2.init,
       0 + 4)
    /\ 0 <= lo <= 255 /\ 0 <= hi <= 255 /\ lo + 256 * hi = 0x1234.
Proof.
  apply (store_address_is_little_endian
           Stage2.init 0 1%nat "store b, 0x1234" "store" "b" "0x1234" [] 1 0x1234).
  - vm_compute. reflexivity.
  - vm_compute. reflexivity.
  - vm_compute. reflexivity.
  - vm_compute. reflexivity.
  - lia.
Defined.

(* ===================================================================== *)
(** * Stage 1: what [assemble] returns and what it emits                  *)
(* ===================================================================== *)

(** The third way out of the stage-1 [assemble]: the literal is read (a
    hexadecimal literal has no limit of length), the opcode and the
    register are appended, and formatting the warning raises. *)
Lemma stage1_huge_literal_raises :
  run1 ("LOAD A, " +:+ huge_literal) =
  Stage1.Throw Py.str_limit_error (Stage1.mkAssembler [1; 0] ∅ [] []).
Proof. vm_compute. reflexivity. Qed.

(** The three ways out of the stage-1 [assemble]. *)
Lemma assemble_outcome_aux
    (st : Stage1.Assembler) (src : string) :
  Stage1.returns_or_raises_limit
    (Stage1.errors st) (Stage1.assemble st src).
Proof.
  unfold Stage1.assemble.
  set (ls := Py.split_on Py.LF src).
  pose proof (for_lines_ok _ ls first_pass_line_ok
                (Stage1.set_instructions [] st) 1%nat) as H1.
  fold (Stage1.first_pass (Stage1.set_instructions [] st) ls) in H1.
  destruct (Stage1.first_pass (Stage1.set_instructions [] st) ls)
    as [sa|[|] sa|e sa]; cbn in H1; try exact H1; [|destruct H1].
  pose proof (for_lines_limit _ ls second_pass_line_limit
                (Stage1.set_instructions []
                   (Stage1.set_instructions [] sa)) 1%nat) as H2.
  fold (Stage1.second_pass (Stage1.set_instructions [] sa) ls) in H2.
  cbn [Stage1.errors Stage1.set_instructions] in H2. rewrite H1 in H2.
  destruct (Stage1.second_pass (Stage1.set_instructions [] sa) ls)
    as [sb|[|] sb|e sb]; exact H2.
Qed.

(** X9.  The stage-1 [assemble] ends in one of three ways, whatever the
    object and the source: it returns True with the error list as it found
    it; it returns False with exactly one more error, which names a line; or
    the [ValueError] of the integer-to-string limit leaves it, raised while
    the second pass formats the warning for a literal above 255, the error
    list being as it was.  No [IndexError] and no other [ValueError] leaves
    it. *)
Theorem assemble_returns_or_raises_limit
    (st : Stage1.Assembler) (src : string) :
  Stage1.returns_or_raises_limit
    (Stage1.errors st) (Stage1.assemble st src).
Proof. apply assemble_outcome_aux. Qed.

Section Stage1_bytes.

Import Stage1.

(** An invariant of the object that every step of a loop keeps is kept by
    the loop. *)
Lemma for_operands_invariant (P : Assembler -> Prop) (ops : list string) :
  (forall st n o, P st -> P (object (operand_step st n o))) ->
  forall (st : Assembler) (n : nat), P st -> P (object (for_operands st n ops)).
Proof.
  intros Hstep. induction ops as [|o rest IH]; intros st n HP; [exact HP|].
  cbn [for_operands]. pose proof (Hstep st n o HP) as H.
  destruct (operand_step st n o) as [st1|b st1|e st1]; cbn [object] in *.
  - now apply IH.
  - exact H.
  - exact H.
Qed.

Lemma for_lines_invariant (P : Assembler -> Prop)
    (body : Assembler -> nat -> string -> control) (lines : list string) :
  (forall st n l, P st -> P (object (body st n l))) ->
  forall (st : Assembler) (n : nat), P st -> P (object (for_lines body st n lines)).
Proof.
  intros Hstep. induction lines as [|l rest IH]; intros st n HP; [exact HP|].
  cbn [for_lines]. pose proof (Hstep st n l HP) as H.
  destruct (body st n l) as [st1|b st1|e st1]; cbn [object] in *.
  - now apply IH.
  - exact H.
  - exact H.
Qed.

Lemma stage1_register_range (r : string) (i : Z) :
  Py.assoc r registers = Some i -> 0 <= i <= 3.
Proof.
  unfold registers. cbn [Py.assoc]. intros H.
  repeat match type of H with
         | (if ?b then _ else _) = _ => destruct b
         end; inversion H; lia.
Qed.

Lemma stage1_opcode_range (c : string) (opc : Z) :
  Py.assoc c commands = Some opc -> 1 <= opc <= 16.
Proof.
  unfold commands. cbn [Py.assoc]. intros H.
  repeat match type of H with
         | (if ?b then _ else _) = _ => destruct b
         end; inversion H; lia.
Qed.

Lemma holds_bytes_push (st : Assembler) (b : Z) :
  holds_bytes st -> 0 <= b <= 255 -> holds_bytes (push b st).
Proof.
  intros [Hl Hi] Hb. split; [exact Hl|].
  cbn [instructions push]. apply Forall_app. split; [exact Hi|].
  now repeat constructor.
Qed.

Lemma operand_step_holds_bytes (st : Assembler) (n : nat) (o : string) :
  holds_bytes st -> holds_bytes (object (operand_step st n o)).
Proof.
  intros H. unfold operand_step.
  destruct (labels st !! _) as [a|] eqn:El.
  { cbn [object]. apply holds_bytes_push; [exact H|]. now apply (proj1 H _ _ El). }
  destruct (Py.assoc _ registers) as [r|] eqn:Er.
  { cbn [object]. apply holds_bytes_push; [exact H|].
    apply stage1_register_range in Er. lia. }
  destruct (is_valid_number _); [|exact H].
  destruct (Py.int 0 _) as [z|e]; [|exact H].
  destruct (255 <? z);
    [destruct (Py.str_int z); [|exact H]|];
    cbn [object]; (apply holds_bytes_push; [exact H|apply land_255_range]).
Qed.

Lemma second_pass_line_holds_bytes (st : Assembler) (n : nat) (l : string) :
  holds_bytes st -> holds_bytes (object (second_pass_line st n l)).
Proof.
  intros H. unfold second_pass_line.
  destruct (_ || _); [exact H|].
  destruct (Py.split _) as [|p0 ops]; [exact H|].
  destruct (Py.assoc _ commands) as [opc|] eqn:Ec; [|exact H].
  apply (for_operands_invariant holds_bytes ops operand_step_holds_bytes).
  apply holds_bytes_push; [exact H|]. apply stage1_opcode_range in Ec. lia.
Qed.

End Stage1_bytes.

Lemma stage1_second_pass_emits_bytes_aux
    (st : Stage1.Assembler) (lines : list string) :
  (forall k v, Stage1.labels st !! k = Some v -> 0 <= v <= 255) ->
  Forall (fun z => 0 <= z <= 255)
    (Stage1.instructions (Stage1.object (Stage1.second_pass st lines))).
Proof.
  intros Hl. unfold Stage1.second_pass.
  apply (for_lines_invariant Stage1.holds_bytes _ lines
           second_pass_line_holds_bytes).
  split; [exact Hl|constructor].
Qed.

(** X10.  When every address in the label table is a byte, the second pass
    of stage 1 leaves bytes only in the instruction list, whether it
    returns True or stops at an error: opcodes and register numbers are
    bytes, a literal is masked, and a label is copied as it is. *)
Theorem stage1_second_pass_emits_bytes
    (st : Stage1.Assembler) (lines : list string) :
  (forall k v, Stage1.labels st !! k = Some v -> 0 <= v <= 255) ->
  Forall (fun z => 0 <= z <= 255)
    (Stage1.instructions (Stage1.object (Stage1.second_pass st lines))).
Proof.
  apply stage1_second_pass_emits_bytes_aux.
Qed.

Lemma stage1_second_pass_emits_bytes_witness :
  Forall (fun z => 0 <= z <= 255)
    (Stage1.instructions
       (Stage1.object
          (Stage1.second_pass
             (Stage1.mkAssembler [] (<["L" := 7]> ∅) [] [])
             ["JMP L"; "LOAD A, 300"]))).
Proof.
  apply stage1_second_pass_emits_bytes.
  intros k v H. cbn [Stage1.labels] in H.
  apply lookup_insert_Some in H as [[_ <-]|[_ H]]; [lia|].
  rewrite lookup_empty in H. discriminate H.
Defined.

Section Stage1_labels_bound.

Import Stage1.

(** Pass 1 gives a label the number of commands read so far, which stays
    below the number of lines of the program. *)
Lemma first_pass_label_bound (B : nat) (lines : list string) :
  forall (st : Assembler) (n : nat),
    (length (instructions st) + length lines <= B)%nat ->
    (forall k v, labels st !! k = Some v -> 0 <= v < Z.of_nat B) ->
    forall k v,
      labels (object (for_lines first_pass_line st n lines)) !! k = Some v ->
      0 <= v < Z.of_nat B.
Proof.
  induction lines as [|l rest IH]; intros st n Hlen Hl k v; [exact (Hl k v)|].
  cbn [for_lines length] in *.
  destruct (label_decl l) as [name|] eqn:E.
  - rewrite (first_pass_line_label _ _ _ _ E).
    destruct (negb _); [exact (Hl k v)|].
    destruct (bool_decide _); [exact (Hl k v)|].
    apply IH.
    + cbn [instructions set_label]. lia.
    + intros k' v' H. cbn [labels set_label] in H.
      apply lookup_insert_Some in H as [[_ <-]|[_ H]]; [lia|exact (Hl k' v' H)].
  - rewrite (first_pass_line_other _ _ _ E).
    destruct (Py.is_empty _); [apply IH; [lia|exact Hl]|].
    destruct (Py.split _) as [|p0 ps]; [apply IH; [lia|exact Hl]|].
    destruct (Py.assoc _ _); [|exact (Hl k v)].
    apply IH; [|exact Hl]. cbn [instructions push]. rewrite length_app.
    cbn [length]. lia.
Qed.

Lemma first_pass_line_zeros (st : Assembler) (n : nat) (l : string) :
  Forall (fun z => 0 <= z <= 255) (instructions st) ->
  Forall (fun z => 0 <= z <= 255) (instructions (object (first_pass_line st n l))).
Proof.
  intros H.
  destruct (label_decl l) as [name|] eqn:E.
  - rewrite (first_pass_line_label _ _ _ _ E).
    destruct (negb _); [exact H|]. destruct (bool_decide _); exact H.
  - rewrite (first_pass_line_other _ _ _ E).
    destruct (Py.is_empty _); [exact H|].
    destruct (Py.split _) as [|p0 ps]; [exact H|].
    destruct (Py.assoc _ _); [|exact H].
    cbn [object instructions push]. apply Forall_app. split; [exact H|].
    repeat constructor; lia.
Qed.

End Stage1_labels_bound.

(** X11.  A source of at most 256 lines, assembled by stage 1 on a fresh
    object, leaves bytes only in the instruction list, whatever [assemble]
    returns: a label counts the commands before it, so it stays below
    256. *)
Theorem stage1_short_program_is_bytes (src : string) :
  (length (Py.split_on Py.LF src) <= 256)%nat ->
  Forall (fun z => 0 <= z <= 255)
    (Stage1.instructions (Stage1.object (Stage1.assemble Stage1.init src))).
Proof.
  intros Hlen. unfold Stage1.assemble.
  set (ls := Py.split_on Py.LF src) in *.
  set (s0 := Stage1.set_instructions [] Stage1.init).
  assert (Hz : Forall (fun z => 0 <= z <= 255)
                 (Stage1.instructions (Stage1.object (Stage1.first_pass s0 ls)))).
  { apply (for_lines_invariant
             (fun st => Forall (fun z => 0 <= z <= 255) (Stage1.instructions st))
             _ ls first_pass_line_zeros). constructor. }
  assert (Hb : forall k v,
             Stage1.labels (Stage1.object (Stage1.first_pass s0 ls)) !! k = Some v ->
             0 <= v < Z.of_nat 256).
  { apply (first_pass_label_bound 256 ls s0 1%nat); [exact Hlen|].
    intros k v H. cbn in H. rewrite lookup_empty in H. discriminate H. }
  destruct (Stage1.first_pass s0 ls) as [sa|[|] sa|e sa];
    cbn [Stage1.object] in *; try exact Hz.
  assert (Hs : Forall (fun z => 0 <= z <= 255)
                 (Stage1.instructions
                    (Stage1.object
                       (Stage1.second_pass (Stage1.set_instructions [] sa) ls)))).
  { apply stage1_second_pass_emits_bytes_aux. intros k v H.
    specialize (Hb k v H). lia. }
  destruct (Stage1.second_pass (Stage1.set_instructions [] sa) ls)
    as [sb|[|] sb|e sb]; exact Hs.
Qed.

Lemma stage1_short_program_is_bytes_witness :
  Stage1.instructions
    (Stage1.object
       (Stage1.assemble Stage1.init
          (Py.join nl ["HALT"; "L:"; "JMP L"; "LOAD A, 300"; "LOAD B, -1"]))) =
  [16; 8; 1; 1; 0; 44; 1; 1; 255]
  /\ Forall (fun z => 0 <= z <= 255)
       (Stage1.instructions
          (Stage1.object
             (Stage1.assemble Stage1.init
                (Py.join nl
                   ["HALT"; "L:"; "JMP L"; "LOAD A, 300"; "LOAD B, -1"])))).
Proof.
  split; [vm_compute; reflexivity|].
  apply stage1_short_program_is_bytes. vm_compute. lia.
Defined.

Section Stage1_lengths.

Import Stage1.

Lemma operand_step_length (st : Assembler) (n : nat) (o : string) :
  match operand_step st n o with
  | Continue st' => length (instructions st') = S (length (instructions st))
  | Return b _ => b = false
  | Throw _ _ => True
  end.
Proof.
  unfold operand_step.
  destruct (labels st !! _);
    [cbn [instructions push]; rewrite length_app; cbn; lia|].
  destruct (Py.assoc _ registers);
    [cbn [instructions push]; rewrite length_app; cbn; lia|].
  destruct (is_valid_number _); [|reflexivity].
  destruct (Py.int 0 _) as [z|e]; [|exact I].
  destruct (255 <? z);
    [destruct (Py.str_int z); [|exact I]|];
    cbn [instructions push add_warning]; rewrite length_app; cbn; lia.
Qed.

Lemma for_operands_length (ops : list string) :
  forall (st : Assembler) (n : nat),
    match for_operands st n ops with
    | Continue st' =>
        length (instructions st') = (length (instructions st) + length ops)%nat
    | Return b _ => b = false
    | Throw _ _ => True
    end.
Proof.
  induction ops as [|o rest IH]; intros st n; [cbn; lia|].
  cbn [for_operands]. pose proof (operand_step_length st n o) as H.
  destruct (operand_step st n o) as [st1|b st1|e st1]; [|exact H|exact I].
  pose proof (IH st1 n) as H'.
  destruct (for_operands st1 n rest) as [st2|b st2|e st2]; [|exact H'|exact I].
  cbn [length]. lia.
Qed.

Lemma second_pass_line_length (st : Assembler) (n : nat) (l : string) :
  match second_pass_line st n l with
  | Continue st' =>
      length (instructions st') =
      (length (instructions st) + bytes_of_line l)%nat
  | Return b _ => b = false
  | Throw _ _ => True
  end.
Proof.
  unfold second_pass_line, bytes_of_line, logical.
  destruct (_ || _); [lia|].
  destruct (Py.split _) as [|p0 ops]; [exact I|].
  destruct (Py.assoc _ commands) as [opc|]; [|lia].
  pose proof (for_operands_length ops (push opc st) n) as H.
  destruct (for_operands (push opc st) n ops) as [st1|b st1|e st1];
    [|exact H|exact I].
  rewrite H. cbn [instructions push]. rewrite length_app. cbn [length]. lia.
Qed.

Lemma second_pass_lines_length (lines : list string) :
  forall (st : Assembler) (n : nat) (st' : Assembler),
    for_lines second_pass_line st n lines = Return true st' ->
    length (instructions st') =
    (length (instructions st) + list_sum (map bytes_of_line lines))%nat.
Proof.
  induction lines as [|l rest IH]; intros st n st' H.
  - cbn in H. injection H as <-. cbn. lia.
  - cbn [for_lines] in H. pose proof (second_pass_line_length st n l) as Hl.
    destruct (second_pass_line st n l) as [st1|b st1|e st1].
    + rewrite (IH _ _ _ H), Hl. cbn [map].
      change (list_sum (bytes_of_line l :: map bytes_of_line rest))
        with (bytes_of_line l + list_sum (map bytes_of_line rest))%nat.
      lia.
    + injection H as -> _. discriminate Hl.
    + discriminate H.
Qed.

End Stage1_lengths.

(** X12.  When the stage-1 [assemble] returns True, the machine code holds
    one byte for every token of every command line, the mnemonic included,
    and nothing for the other lines: the number of operands is never
    checked against the command. *)
Theorem stage1_code_length_is_token_count
    (st st' : Stage1.Assembler) (src : string) :
  Stage1.assemble st src = Stage1.Return true st' ->
  length (Stage1.instructions st') =
  list_sum (map Stage1.bytes_of_line (Py.split_on Py.LF src)).
Proof.
  unfold Stage1.assemble. set (ls := Py.split_on Py.LF src).
  destruct (Stage1.first_pass (Stage1.set_instructions [] st) ls)
    as [sa|[|] sa|e sa]; try discriminate.
  destruct (Stage1.second_pass (Stage1.set_instructions [] sa) ls)
    as [sb|[|] sb|e sb] eqn:E; try discriminate.
  intros [= <-]. unfold Stage1.second_pass in E.
  now rewrite (second_pass_lines_length _ _ _ _ E).
Qed.

Lemma stage1_code_length_is_token_count_witness :
  length [0x10; 0; 1; 2] =
  list_sum (map Stage1.bytes_of_line (Py.split_on Py.LF "HALT A B C")).
Proof.
  apply (stage1_code_length_is_token_count Stage1.init
           (Stage1.mkAssembler [0x10; 0; 1; 2] ∅ [] []) "HALT A B C").
  vm_compute. reflexivity.
Defined.

Section Stage1_parse_operand.

Import Stage1.

Lemma rstrip_by_id (p : ascii -> bool) (s : string) :
  Py.forallb_str (fun c => negb (p c)) s = true -> Py.rstrip_by p s = s.
Proof.
  induction s as [|c r IH]; [reflexivity|]. cbn.
  intros [Hc Hr]%andb_true_iff. rewrite (IH Hr).
  apply negb_true_iff in Hc. now rewrite Hc.
Qed.

Lemma strip_id (s : string) : no_space s = true -> Py.strip s = s.
Proof.
  unfold no_space, Py.strip, Py.rstrip. intros H.
  assert (Py.lstrip s = s) as ->.
  { destruct s as [|c r]; [reflexivity|]. cbn in H |- *.
    apply andb_true_iff in H as [Hc _]. apply negb_true_iff in Hc.
    now rewrite Hc. }
  now apply rstrip_by_id.
Qed.

Lemma rstrip_by_forallb (p q : ascii -> bool) (s : string) :
  Py.forallb_str q s = true -> Py.forallb_str q (Py.rstrip_by p s) = true.
Proof.
  induction s as [|c r IH]; [reflexivity|]. cbn.
  intros [Hc Hr]%andb_true_iff.
  destruct (p c && Py.is_empty (Py.rstrip_by p r)); [reflexivity|].
  cbn. now rewrite Hc, (IH Hr).
Qed.

(** On a token, the two ways of cleaning an operand agree. *)
Lemma clean_token (o : string) :
  no_space o = true ->
  clean o = Py.rstrip_comma o /\
  Py.rstrip_comma (Py.strip o) = Py.rstrip_comma o.
Proof.
  intros H. unfold clean. split.
  - apply strip_id. unfold no_space, Py.rstrip_comma.
    now apply rstrip_by_forallb.
  - now rewrite (strip_id _ H).
Qed.

Lemma land_255_small (r : Z) : 0 <= r <= 3 -> Z.land r 255 = r.
Proof.
  intros H.
  assert (r = 0 \/ r = 1 \/ r = 2 \/ r = 3) as [->|[->|[->| ->]]] by lia;
    reflexivity.
Qed.

End Stage1_parse_operand.

(** X13.  On an ASCII token (no white space) that is not a label, the
    operand loop of the second pass does what [parse_operand] says.  Where
    [parse_operand] gives a value of at most 255, the loop appends it;
    where it gives a larger value, the loop formats a warning and appends
    the value masked to one byte, unless the value has more than 4300
    decimal digits: then formatting raises [ValueError] and nothing is
    appended.  Where [parse_operand] gives [None], the loop records the
    invalid-operand error and returns False.  [parse_operand] raises
    nothing. *)
Theorem operand_loop_agrees_with_parse_operand
    (st : Stage1.Assembler) (n : nat) (o : string) :
  Py.isascii o = true ->
  Stage1.no_space o = true ->
  Stage1.labels st !! Stage1.clean o = None ->
  match Stage1.parse_operand o with
  | inl (Some v) =>
      Stage1.operand_step st n o =
      if 255 <? v then
        if 10 ^ Py.max_str_digits <=? v then
          Stage1.Throw Py.str_limit_error st
        else
          Stage1.Continue
            (Stage1.push (Z.land v 0xFF)
               (Stage1.add_warning
                  (Stage1.at_line n
                     ("Значение " +:+ pretty v +:+ " больше 255, "
                      +:+ "будет использовано " +:+ pretty (Z.land v 0xFF)))
                  st))
      else Stage1.Continue (Stage1.push (Z.land v 0xFF) st)
  | inl None =>
      Stage1.operand_step st n o =
      Stage1.Return false
        (Stage1.add_error
           (Stage1.at_line n ("Неверный операнд '" +:+ Stage1.clean o +:+ "'"))
           st)
  | inr _ => False
  end.
Proof.
  intros _ Hsp Hlbl. destruct (clean_token o Hsp) as [Hc Hp].
  unfold Stage1.parse_operand, Stage1.operand_step.
  fold (Stage1.clean o). rewrite Hlbl, Hp, Hc.
  destruct (Py.assoc (Py.rstrip_comma o) Stage1.registers) as [r|] eqn:Er.
  - pose proof (stage1_register_range _ _ Er) as Hr.
    rewrite (land_255_small r Hr).
    replace (255 <? r) with false by (symmetry; apply Z.ltb_ge; lia).
    reflexivity.
  - destruct (Stage1.is_valid_number (Py.rstrip_comma o)) eqn:Ev; [|reflexivity].
    destruct (is_valid_number_int _ Ev) as [z ->].
    destruct (255 <? z) eqn:Ez; [|reflexivity].
    unfold Py.str_int. apply Z.ltb_lt in Ez.
    rewrite (Z.abs_eq z) by lia.
    destruct (Z.leb _ z); reflexivity.
Qed.

Lemma operand_loop_agrees_with_parse_operand_witness :
  Stage1.operand_step Stage1.init 1 "0x1ff," =
  if 255 <? 511 then
    if 10 ^ Py.max_str_digits <=? 511 then
      Stage1.Throw Py.str_limit_error Stage1.init
    else
      Stage1.Continue
        (Stage1.push (Z.land 511 0xFF)
           (Stage1.add_warning
              (Stage1.at_line 1
                 ("Значение " +:+ pretty 511 +:+ " больше 255, "
                  +:+ "будет использовано " +:+ pretty (Z.land 511 0xFF)))
              Stage1.init))
  else Stage1.Continue (Stage1.push (Z.land 511 0xFF) Stage1.init).
Proof.
  assert (H0 : Py.isascii "0x1ff," = true) by (vm_compute; reflexivity).
  assert (H1 : Stage1.no_space "0x1ff," = true) by (vm_compute; reflexivity).
  assert (H2 : Stage1.labels Stage1.init !! Stage1.clean "0x1ff," = None)
    by (vm_compute; reflexivity).
  pose proof (operand_loop_agrees_with_parse_operand
                Stage1.init 1%nat "0x1ff," H0 H1 H2) as H.
  assert (Hp : Stage1.parse_operand "0x1ff," = inl (Some 511))
    by (vm_compute; reflexivity).
  rewrite Hp in H. exact H.
Defined.

(* ===================================================================== *)
(** * Stage 2: where the two passes count the same                        *)
(* ===================================================================== *)

Lemma contains_before (c d : ascii) (s : string) :
  Py.contains c s = false -> Py.contains c (Py.before d s) = false.
Proof.
  induction s as [|e s IH]; [reflexivity|]. cbn.
  destruct (Ascii.eqb c e) eqn:E; [discriminate|]. intros H.
  destruct (Ascii.eqb d e); [reflexivity|]. cbn. now rewrite E, IH.
Qed.

Lemma contains_lstrip (c : ascii) (s : string) :
  Py.contains c s = false -> Py.contains c (Py.lstrip s) = false.
Proof.
  induction s as [|e s IH]; [reflexivity|]. cbn.
  destruct (Ascii.eqb c e) eqn:E; [discriminate|]. intros H.
  destruct (Py.isspace e); [now apply IH|]. cbn. now rewrite E.
Qed.

Lemma contains_rstrip_by (p : ascii -> bool) (c : ascii) (s : string) :
  Py.contains c s = false -> Py.contains c (Py.rstrip_by p s) = false.
Proof.
  induction s as [|e s IH]; [reflexivity|]. cbn.
  destruct (Ascii.eqb c e) eqn:E; [discriminate|]. intros H.
  destruct (p e && Py.is_empty (Py.rstrip_by p s)); [reflexivity|].
  cbn. now rewrite E, IH.
Qed.

Lemma contains_strip (c : ascii) (s : string) :
  Py.contains c s = false -> Py.contains c (Py.strip s) = false.
Proof.
  intros H. unfold Py.strip, Py.rstrip.
  now apply contains_rstrip_by, contains_lstrip.
Qed.

Lemma before_has_none (c : ascii) (s : string) :
  Py.contains c (Py.before c s) = false.
Proof.
  induction s as [|e s IH]; [reflexivity|]. cbn.
  destruct (Ascii.eqb c e) eqn:E; [reflexivity|]. cbn. now rewrite E.
Qed.

Lemma replace_absent (a b : ascii) (s : string) :
  Py.contains a s = false -> Py.replace a b s = s.
Proof.
  induction s as [|e s IH]; [reflexivity|]. cbn.
  rewrite (Ascii.eqb_sym e a).
  destruct (Ascii.eqb a e); [discriminate|]. intros H. now rewrite IH.
Qed.

Lemma rstrip_by_idem (p : ascii -> bool) (s : string) :
  Py.rstrip_by p (Py.rstrip_by p s) = Py.rstrip_by p s.
Proof.
  induction s as [|e s IH]; [reflexivity|]. cbn.
  destruct (p e && Py.is_empty (Py.rstrip_by p s)) eqn:E; [reflexivity|].
  cbn. now rewrite IH, E.
Qed.

Lemma strip_idem (s : string) : Py.strip (Py.strip s) = Py.strip s.
Proof.
  pose proof (strip_head s) as H. unfold Py.strip at 1.
  assert (Py.lstrip (Py.strip s) = Py.strip s) as ->.
  { destruct (Py.strip s) as [|c r]; [reflexivity|]. cbn. now rewrite H. }
  unfold Py.strip, Py.rstrip. apply rstrip_by_idem.
Qed.

Section Stage2_agreement.

Import Stage2.

(** Without a comma on the line, pass 2 reads the tokens pass 1 reads. *)
Lemma statement_parts_no_comma (l : string) :
  Py.contains "," l = false ->
  statement_parts l =
  (let t := Py.strip (strip_comment l) in
   if Py.is_empty t || Py.contains ":" t then None else Some (Py.split t)).
Proof.
  intros Hc. unfold statement_parts. cbv zeta.
  set (t := Py.strip (strip_comment l)).
  destruct (Py.is_empty t || Py.contains ":" t); [reflexivity|].
  assert (Hsemi : Py.contains ";" t = false).
  { unfold t. apply contains_strip. rewrite stage2_strip_comment_before.
    apply before_has_none. }
  assert (Hcomma : Py.contains "," t = false).
  { unfold t. apply contains_strip. rewrite stage2_strip_comment_before.
    now apply contains_before. }
  unfold strip_comment at 1. rewrite Hsemi.
  rewrite (replace_absent _ _ _ Hcomma). unfold t. now rewrite strip_idem.
Qed.

(** For a command outside the jump group and other than STORE, the width
    pass 1 charges is the opcode plus the operands pass 2 stores. *)
Lemma width_is_record_size (c : string) (opc : Z) :
  Py.assoc c commands = Some opc ->
  is_jump c = false -> c <> "STORE" ->
  width c = 1 + Z.of_nat (operand_count c).
Proof.
  unfold commands. cbn [Py.assoc]. intros H Hj Hs.
  repeat match type of H with
         | (if String.eqb c ?k then _ else _) = _ =>
             destruct (String.eqb c k) eqn:E;
             [apply String.eqb_eq in E; subst c;
              try (vm_compute in Hj; discriminate Hj);
              try (now destruct Hs);
              vm_compute; reflexivity
             |clear E]
         end.
  discriminate H.
Qed.

(** On a line without comma that gives no diagnostic and emits neither a
    jump, a call nor a STORE, the two passes move the address alike. *)
Lemma counted_alike_advance (lbls : gmap string Z) (a : Z) (n : nat) (l : string) :
  Py.contains "," l = false ->
  counted_alike lbls n l ->
  advance a l = next_address lbls a n l.
Proof.
  intros Hc [Hd He].
  unfold diagnostics in Hd. unfold emitted in He. unfold next_address.
  rewrite second_pass_line_parts in Hd, He. rewrite second_pass_line_parts.
  cbn [labels] in *.
  rewrite (statement_parts_no_comma l Hc) in *. cbv zeta in *.
  unfold advance, first_pass_line.
  destruct (Py.is_empty (Py.strip (strip_comment l))); [reflexivity|].
  destruct (Py.contains ":" (Py.strip (strip_comment l))); [reflexivity|].
  cbn [orb] in *.
  destruct (Py.split (Py.strip (strip_comment l))) as [|p0 ps]; [reflexivity|].
  cbv zeta.
  destruct (Py.assoc (Py.upper p0) commands) as [opc|] eqn:Ec; [|reflexivity].
  destruct (encode lbls n (Py.upper p0) (p0 :: ps)) as [ops|msg|e] eqn:Ee;
    [|discriminate Hd|discriminate Hd].
  cbn [fst snd instructions add_instruction app] in *.
  destruct (He _ (or_introl eq_refl)) as [Hj Hs]. cbn [mnemonic] in Hj, Hs.
  destruct (encode_operands _ _ _ _ _ Ee) as [Hlen _].
  rewrite (width_is_record_size _ _ Ec Hj Hs), Hlen. lia.
Qed.

(** The same for a whole pass, from any line number on. *)
Lemma counted_alike_pass (lines : list string) :
  forall (st1 st2 : Assembler) (a : Z) (n : nat),
    (forall k l, In (k, l) (Py.enumerate n lines) ->
                 Py.contains "," l = false /\ counted_alike (labels st2) k l) ->
    snd (first_pass_from st1 a lines) = snd (second_pass_from st2 a n lines).
Proof.
  induction lines as [|l rest IH]; intros st1 st2 a n H; [reflexivity|].
  cbn [first_pass_from second_pass_from].
  rewrite first_pass_line_eq, second_pass_line_frame.
  destruct (H n l (or_introl eq_refl)) as [Hc Ha].
  rewrite (counted_alike_advance _ a _ _ Hc Ha).
  apply IH. cbn [labels]. intros k l' Hin. apply H. now right.
Qed.

End Stage2_agreement.

Lemma enumerate_app_l {A : Type} (xs ys : list A) :
  forall (n k : nat) (x : A),
    In (k, x) (Py.enumerate n xs) -> In (k, x) (Py.enumerate n (xs ++ ys)).
Proof.
  induction xs as [|y xs IH]; intros n k x H; [destruct H|].
  cbn in H |- *. destruct H as [H|H]; [now left|right; now apply IH].
Qed.

(** X14.  Where the program holds no jump, no call and no STORE, the two
    passes of stage 2 agree.  If no line holds a comma, no line gives a
    diagnostic in pass 2 and no emitted record is a jump, a call or a
    STORE, then after every prefix of the program pass 1 holds the address
    that pass 2 holds: the address a label receives is the address at
    which pass 2 emits the next instruction. *)
Theorem passes_agree_without_jumps_and_store
    (st1 st2 : Stage2.Assembler) (pre post : list string) :
  (forall k l, In (k, l) (Py.enumerate 1 (pre ++ post)) ->
               Py.contains "," l = false /\
               Stage2.counted_alike (Stage2.labels st2) k l) ->
  snd (Stage2.first_pass_from st1 0 pre) =
  snd (Stage2.second_pass_from st2 0 1 pre).
Proof.
  intros H. apply counted_alike_pass. intros k l Hin.
  apply H. now apply enumerate_app_l.
Qed.

Lemma passes_agree_without_jumps_and_store_witness :
  snd (Stage2.first_pass_from Stage2.init 0 ["LOAD A 5"; "PUSH A"]) =
  snd (Stage2.second_pass_from Stage2.init 0 1 ["LOAD A 5"; "PUSH A"]).
Proof.
  apply (passes_agree_without_jumps_and_store
           Stage2.init Stage2.init ["LOAD A 5"; "PUSH A"] ["END:"; "HALT"]).
  intros k l Hin. vm_compute in Hin.
  destruct Hin as [Hin|[Hin|[Hin|[Hin|[]]]]]; injection Hin as <- <-;
    (split; [vm_compute; reflexivity|]);
    (split; [vm_compute; reflexivity|]);
    intros i Hi; vm_compute in Hi;
    try (destruct Hi as [<-|[]]; split; [vm_compute; reflexivity|discriminate]);
    destruct Hi.
Defined.

(* ===================================================================== *)
(** * Faulty lines and the diagnostics of the second pass                 *)
(* ===================================================================== *)

Section Stage2_faults.

Import Stage2.

Lemma known_command (command : string) (opc : Z) :
  Py.assoc command commands = Some opc -> In command (map fst commands).
Proof.
  unfold commands. cbn [Py.assoc map fst]. intros H.
  repeat match type of H with
         | (if String.eqb command ?s then _ else _) = _ =>
             destruct (String.eqb_spec command s) as [->|_];
             [cbn; tauto|]
         end.
  discriminate.
Qed.

Lemma is_register_lookup (tok : string) :
  is_register tok =
  match Py.assoc (Py.upper tok) registers with
  | Some _ => true
  | None => false
  end.
Proof.
  unfold is_register. destruct (Py.assoc _ _); reflexivity.
Qed.

Lemma upper_empty (s : string) : Py.is_empty (Py.upper s) = Py.is_empty s.
Proof. destruct s; reflexivity. Qed.

Lemma encode_fits (lbls : gmap string Z) (n : nat) (command p0 : string)
    (ops : list string) (opc : Z) :
  Py.assoc command commands = Some opc ->
  exists g, Py.assoc command grammars = Some g /\
    match encode lbls n command (p0 :: ops) with
    | Encoded _ => operands_ok lbls g ops = true
    | Rejected msg =>
        operands_ok lbls g ops = false /\ exists m, msg = at_line n m
    | Raised _ => operands_ok lbls g ops = false
    end.
Proof.
  intros H. apply known_command in H. cbn [map fst commands In] in H.
  repeat (destruct H as [<-|H]); [..|destruct H];
    (eexists; split; [reflexivity|]);
    unfold encode;
    simpl (String.eqb _ _); simpl (Py.mem _ _); cbv beta iota delta [orb].
  all: destruct ops as [|a [|b ops]]; cbn [operands_ok];
    rewrite ?is_register_lookup; unfold in_range, is_target;
    try (split; [reflexivity|eexists; reflexivity]); try reflexivity.
  all: repeat match goal with
         | |- context [Py.is_empty (Py.upper ?t)] => rewrite (upper_empty t)
         | |- context [Py.is_empty ?t] =>
             destruct t; cbn [Py.is_empty negb andb Py.upper];
             try (simpl (Py.assoc EmptyString registers))
         | |- context [Py.assoc ?k registers] => destruct (Py.assoc k registers)
         | |- context [reg_or_literal ?v] => destruct (reg_or_literal v)
         | |- context [literal ?v] => destruct (literal v)
         | |- context [(0 <=? ?v) && (?v <=? ?h)] =>
             destruct ((0 <=? v) && (v <=? h))
         | |- context [@lookup _ _ (gmap string Z) _ ?k ?m] => destruct (m !! k)
         | |- context [Py.isdigit ?k] => destruct (Py.isdigit k)
         | |- context [Py.int 10 ?k] => destruct (Py.int 10 k)
         end;
       cbn [andb orb negb];
       try reflexivity; try (split; [reflexivity|eexists; reflexivity]).
Qed.

Lemma unknown_command (command : string) :
  Py.assoc command commands = None -> Py.assoc command grammars = None.
Proof.
  unfold commands, grammars. cbn [Py.assoc]. intros H.
  repeat match type of H with
         | (if String.eqb command ?s then _ else _) = _ =>
             destruct (String.eqb command s); [discriminate|]
         end.
  reflexivity.
Qed.

(** What the loop body of pass 2 does with a line: nothing when it is not
    a statement, one diagnostic of that line when it is faulty, one record
    otherwise. *)
Lemma second_pass_line_cases (st : Assembler) (addr : Z) (n : nat) (l : string) :
  match statement_parts l with
  | Some (p0 :: ops) =>
      if faulty (labels st) l then
        exists msg,
          second_pass_line st addr n l = (add_error (at_line n msg) st, addr)
      else
        exists opc code,
          Py.assoc (Py.upper p0) commands = Some opc /\
          second_pass_line st addr n l =
          (add_instruction (mkInstruction (Py.upper p0) opc code n addr) st,
           addr + 1 + Z.of_nat (length code))
  | _ => faulty (labels st) l = false /\ second_pass_line st addr n l = (st, addr)
  end.
Proof.
  rewrite second_pass_line_parts. unfold faulty.
  destruct (statement_parts l) as [[|p0 ops]|]; [now split| |now split].
  destruct (Py.assoc (Py.upper p0) commands) as [opc|] eqn:Ec.
  - destruct (encode_fits (labels st) n (Py.upper p0) p0 ops opc Ec)
      as (g & -> & H).
    destruct (encode (labels st) n (Py.upper p0) (p0 :: ops)) as [code|msg|e].
    + rewrite H. cbn [negb]. now exists opc, code.
    + destruct H as [-> [m ->]]. cbn [negb]. now exists m.
    + rewrite H. cbn [negb]. eexists. reflexivity.
  - rewrite (unknown_command _ Ec). eexists. reflexivity.
Qed.








End Stage2_faults.

Section Stage1_stop.

Import Stage1.

Lemma split_empty : Py.split EmptyString = [].
Proof. reflexivity. Qed.


End Stage1_stop.



(* ===================================================================== *)
(** * Label declarations in the two variants                              *)
(* ===================================================================== *)

Section Label_lines.

Lemma contains_nonempty (c : ascii) (s : string) :
  Py.contains c s = true -> Py.is_empty s = false.
Proof. destruct s; [discriminate|reflexivity]. Qed.

(** Stage 1: a line that ends with a colon is a declaration for both
    passes. *)
Lemma stage1_colon_line_decl (l : string) :
  Py.endswith ":" (Stage1.logical l) = true ->
  Stage1.label_decl l = Some (Stage1.label_of_line l).
Proof. unfold Stage1.label_decl. now intros ->. Qed.

Lemma stage1_other_line_decl (l : string) :
  Py.endswith ":" (Stage1.logical l) = false -> Stage1.label_decl l = None.
Proof. unfold Stage1.label_decl. now intros ->. Qed.

Lemma not_valid_identifier (name : string) :
  Py.isidentifier name = false \/
  is_Some (Py.assoc (Py.upper name) Stage1.commands) ->
  Stage1.is_valid_identifier name = false.
Proof.
  unfold Stage1.is_valid_identifier. intros [->|H]; [reflexivity|].
  rewrite (bool_decide_eq_true_2 _ H). apply andb_false_r.
Qed.

(** Stage 2: the loop body of pass 2 on a line that holds no colon and at
    least one token records an error or an instruction. *)
Lemma stage2_statement_line (st : Stage2.Assembler) (addr : Z) (n : nat)
    (l p0 : string) (ops : list string) :
  Py.contains ":" (Py.strip (Stage2.strip_comment l)) = false ->
  Py.split
    (Py.strip
       (Py.replace "," " "
          (Stage2.strip_comment (Py.strip (Stage2.strip_comment l))))) =
  p0 :: ops ->
  (exists msg,
      Stage2.second_pass_line st addr n l =
      (Stage2.add_error (Stage2.at_line n msg) st, addr))
  \/ (exists opc code,
         Py.assoc (Py.upper p0) Stage2.commands = Some opc /\
         Stage2.second_pass_line st addr n l =
         (Stage2.add_instruction
            (Stage2.mkInstruction (Py.upper p0) opc code n addr) st,
          addr + 1 + Z.of_nat (length code))).
Proof.
  intros Hc Hs.
  assert (Hp : Stage2.statement_parts l = Some (p0 :: ops)).
  { unfold Stage2.statement_parts. rewrite Hc, orb_false_r.
    destruct (Py.is_empty (Py.strip (Stage2.strip_comment l))) eqn:E.
    - destruct (Py.strip (Stage2.strip_comment l)); [|discriminate E].
      discriminate Hs.
    - now rewrite Hs. }
  pose proof (second_pass_line_cases st addr n l) as C. rewrite Hp in C.
  destruct (Stage2.faulty (Stage2.labels st) l); [now left|now right].
Qed.

End Label_lines.

(** C8 (amended).  On ASCII source lines.  Stage 1: a line that, comment
    removed and trimmed, ends with a colon is a label declaration: pass 1
    checks the name before the colon and either records the invalid-name
    error (the name is not an identifier, or is a mnemonic in any case),
    or the duplicate error, returning False with the label table
    untouched, or registers it at the number of instructions counted so
    far; pass 2 adds nothing for the line, whatever the name.  A line
    that does not end with a colon is never one: pass 1 leaves the label
    table as it was and treats the line as a statement (a placeholder for
    a known mnemonic, the unknown-command error otherwise), and pass 2
    encodes it when its mnemonic is known.  Stage 2: a line that, comment
    removed and trimmed, holds a colon anywhere is a label declaration:
    pass 1 registers the trimmed text before the first colon at the
    current address without any check, and pass 2 skips the line.  A
    line that holds no colon is never one: pass 1 leaves the object as it
    was, and pass 2 records an error or an instruction for it when it has
    a token. *)
Theorem label_lines_by_variant
    (st1 : Stage1.Assembler) (st2 : Stage2.Assembler) (addr : Z) (n : nat)
    (d1 o1 d2 o2 : string) :
  Py.isascii d1 = true ->
  Py.isascii o1 = true ->
  Py.isascii d2 = true ->
  Py.isascii o2 = true ->
  Py.endswith ":" (Stage1.logical d1) = true ->
  Py.endswith ":" (Stage1.logical o1) = false ->
  Py.contains ":" (Py.strip (Stage2.strip_comment d2)) = true ->
  Py.contains ":" (Py.strip (Stage2.strip_comment o2)) = false ->
  Stage1.first_pass_line st1 n d1 =
    (if negb (Stage1.is_valid_identifier (Stage1.label_of_line d1)) then
       Stage1.Return false
         (Stage1.add_error
            (Stage1.at_line n
               ("Неверное имя метки '" +:+ Stage1.label_of_line d1 +:+ "'"))
            st1)
     else if bool_decide
               (is_Some (Stage1.labels st1 !! Stage1.label_of_line d1)) then
       Stage1.Return false
         (Stage1.add_error
            (Stage1.at_line n
               ("Метка '" +:+ Stage1.label_of_line d1 +:+ "' уже определена"))
            st1)
     else
       Stage1.Continue
         (Stage1.set_label (Stage1.label_of_line d1)
            (Z.of_nat (length (Stage1.instructions st1))) st1))
  /\ (Py.isidentifier (Stage1.label_of_line d1) = false \/
      is_Some (Py.assoc (Py.upper (Stage1.label_of_line d1)) Stage1.commands) ->
      Stage1.first_pass_line st1 n d1 =
      Stage1.Return false
        (Stage1.add_error
           (Stage1.at_line n
              ("Неверное имя метки '" +:+ Stage1.label_of_line d1 +:+ "'"))
           st1))
  /\ Stage1.second_pass_line st1 n d1 = Stage1.Continue st1
  /\ Stage1.labels (Stage1.object (Stage1.first_pass_line st1 n o1)) =
     Stage1.labels st1
  /\ (forall (p0 : string) (ops : list string),
         Py.split (Stage1.logical o1) = p0 :: ops ->
         Stage1.first_pass_line st1 n o1 =
         match Py.assoc (Py.upper p0) Stage1.commands with
         | Some _ => Stage1.Continue (Stage1.push 0 st1)
         | None =>
             Stage1.Return false
               (Stage1.add_error
                  (Stage1.at_line n
                     ("Неизвестная команда '" +:+ Py.upper p0 +:+ "'")) st1)
         end)
  /\ (forall (p0 : string) (ops : list string) (opc : Z),
         Py.split (Stage1.logical o1) = p0 :: ops ->
         Py.assoc (Py.upper p0) Stage1.commands = Some opc ->
         Stage1.second_pass_line st1 n o1 =
         Stage1.for_operands (Stage1.push opc st1) n ops)
  /\ Stage2.first_pass_line st2 addr d2 =
     (Stage2.set_label (Stage2.label_of_line d2) addr st2, addr)
  /\ Stage2.second_pass_line st2 addr n d2 = (st2, addr)
  /\ fst (Stage2.first_pass_line st2 addr o2) = st2
  /\ (forall (p0 : string) (ops : list string),
         Py.split
           (Py.strip
              (Py.replace "," " "
                 (Stage2.strip_comment (Py.strip (Stage2.strip_comment o2)))))
         = p0 :: ops ->
         (exists msg,
             Stage2.second_pass_line st2 addr n o2 =
             (Stage2.add_error (Stage2.at_line n msg) st2, addr))
         \/ (exists opc code,
                Py.assoc (Py.upper p0) Stage2.commands = Some opc /\
                Stage2.second_pass_line st2 addr n o2 =
                (Stage2.add_instruction
                   (Stage2.mkInstruction (Py.upper p0) opc code n addr) st2,
                 addr + 1 + Z.of_nat (length code)))).
Proof.
  intros _ _ _ _ Hd1 Ho1 Hd2 Ho2.
  pose proof (stage1_colon_line_decl d1 Hd1) as Dd1.
  pose proof (stage1_other_line_decl o1 Ho1) as Do1.
  split; [|split; [|split; [|split; [|split; [|split; [|split; [|split;
    [|split]]]]]]]].
  - apply (first_pass_line_label _ _ _ _ Dd1).
  - intros Hbad. rewrite (first_pass_line_label _ _ _ _ Dd1).
    now rewrite (not_valid_identifier _ Hbad).
  - unfold Stage1.second_pass_line. fold (Stage1.logical d1).
    rewrite Hd1. now rewrite orb_true_r.
  - rewrite (first_pass_line_other _ _ _ Do1).
    destruct (Py.is_empty _); [reflexivity|].
    destruct (Py.split _) as [|p0 ps]; [reflexivity|].
    destruct (Py.assoc _ _); reflexivity.
  - intros p0 ops Hs. rewrite (first_pass_line_other _ _ _ Do1), Hs.
    destruct (Stage1.logical o1); [discriminate Hs|].
    cbn [Py.is_empty]. destruct (Py.assoc _ _); reflexivity.
  - intros p0 ops opc Hs Hc. unfold Stage1.second_pass_line.
    fold (Stage1.logical o1). rewrite Ho1, Hs, Hc.
    destruct (Stage1.logical o1); [discriminate Hs|reflexivity].
  - unfold Stage2.first_pass_line, Stage2.label_of_line.
    now rewrite (contains_nonempty _ _ Hd2), Hd2.
  - unfold Stage2.second_pass_line.
    now rewrite (contains_nonempty _ _ Hd2), Hd2.
  - unfold Stage2.first_pass_line. rewrite Ho2.
    destruct (Py.is_empty _); [reflexivity|].
    destruct (Py.split _) as [|p0 ps]; [reflexivity|].
    destruct (Py.assoc _ _); reflexivity.
  - intros p0 ops Hs. now apply (stage2_statement_line st2 addr n o2 p0 ops).
Qed.

Lemma label_lines_by_variant_witness :
  Stage1.first_pass_line Stage1.init 1 "START:  ; entry" =
    Stage1.Continue (Stage1.set_label "START" 0 Stage1.init)
  /\ Stage1.second_pass_line Stage1.init 1 "START:  ; entry" =
     Stage1.Continue Stage1.init
  /\ Stage1.labels
       (Stage1.object (Stage1.first_pass_line Stage1.init 1 "LOAD A, 5")) =
     Stage1.labels Stage1.init
  /\ Stage2.first_pass_line Stage2.init 0 "1x: y" =
     (Stage2.set_label "1x" 0 Stage2.init, 0)
  /\ Stage2.second_pass_line Stage2.init 0 1 "1x: y" = (Stage2.init, 0)
  /\ fst (Stage2.first_pass_line Stage2.init 0 "HALT") = Stage2.init.
Proof.
  assert (A1 : Py.isascii "START:  ; entry" = true) by reflexivity.
  assert (A2 : Py.isascii "LOAD A, 5" = true) by reflexivity.
  assert (A3 : Py.isascii "1x: y" = true) by reflexivity.
  assert (A4 : Py.isascii "HALT" = true) by reflexivity.
  assert (H1 : Py.endswith ":" (Stage1.logical "START:  ; entry") = true)
    by (vm_compute; reflexivity).
  assert (H2 : Py.endswith ":" (Stage1.logical "LOAD A, 5") = false)
    by (vm_compute; reflexivity).
  assert (H3 : Py.contains ":" (Py.strip (Stage2.strip_comment "1x: y")) = true)
    by (vm_compute; reflexivity).
  assert (H4 : Py.contains ":" (Py.strip (Stage2.strip_comment "HALT")) = false)
    by (vm_compute; reflexivity).
  destruct (label_lines_by_variant Stage1.init Stage2.init 0 1%nat
              "START:  ; entry" "LOAD A, 5" "1x: y" "HALT"
              A1 A2 A3 A4 H1 H2 H3 H4)
    as (Ha & _ & Hb & Hc & _ & _ & Hd & He & Hf & _).
  exact (conj Ha (conj Hb (conj Hc (conj Hd (conj He Hf))))).
Defined.

(* ===================================================================== *)
(** * Stage 1: sources on which [assemble] cannot raise                   *)
(* ===================================================================== *)

Section Literal_size.

Lemma digit_val_nonneg (c : ascii) (d : Z) : Py.digit_val c = Some d -> 0 <= d.
Proof.
  cbv beta zeta delta [Py.digit_val Py.is_digit Py.is_lower Py.is_upper].
  repeat match goal with
         | |- (if ?b then _ else _) = _ -> _ =>
             let E := fresh "E" in
             destruct b eqn:E;
             [apply andb_true_iff in E as [E _]; apply Z.leb_le in E;
              intros [= H]; lia|clear E]
         end.
  discriminate.
Qed.

(** The value of a run of digits is below the base raised to its length. *)
Lemma digits_bound (base : Z) (s : string) :
  2 <= base ->
  forall (acc count : Z) (prev_us : bool) (c v : Z),
    0 <= acc ->
    Py.digits base acc count prev_us s = Some (c, v) ->
    0 <= v < (acc + 1) * base ^ Z.of_nat (String.length s).
Proof.
  intros Hb. induction s as [|ch r IH]; intros acc count prev c v Hacc H.
  - cbn in H. destruct (prev || (count =? 0)); [discriminate|].
    injection H as _ <-. cbn. lia.
  - cbn [Py.digits] in H. cbn [String.length].
    rewrite Nat2Z.inj_succ, Z.pow_succ_r by lia.
    assert (Hp : 0 < base ^ Z.of_nat (String.length r))
      by (apply Z.pow_pos_nonneg; lia).
    destruct (Ascii.eqb ch "_").
    + destruct prev; [discriminate|].
      specialize (IH _ _ _ _ _ Hacc H). nia.
    + destruct (Py.digit_val ch) as [d|] eqn:Ed; [|discriminate].
      destruct (d <? base) eqn:Elt; [|discriminate].
      apply Z.ltb_lt in Elt. pose proof (digit_val_nonneg _ _ Ed) as Hd.
      assert (Hacc' : 0 <= acc * base + d) by nia.
      specialize (IH _ _ _ _ _ Hacc' H). nia.
Qed.

Lemma after_prefix_bound (base : Z) (skip_us : bool) (s : string) (v : Z) :
  2 <= base ->
  Py.after_prefix base skip_us s = Py.Value v ->
  0 <= v < base ^ Z.of_nat (String.length s).
Proof.
  intros Hb. unfold Py.after_prefix.
  set (s1 := match s with
             | EmptyString => s
             | String c r => if skip_us && Ascii.eqb c "_" then r else s
             end).
  assert (Hlen : (String.length s1 <= String.length s)%nat).
  { unfold s1. destruct s as [|c r]; [reflexivity|].
    destruct (skip_us && Ascii.eqb c "_"); cbn; lia. }
  destruct s1 as [|c r] eqn:Es1; [discriminate|].
  destruct (Ascii.eqb c "_"); [discriminate|].
  destruct (Py.digits base 0 0 false (String c r)) as [[cnt z]|] eqn:Ed;
    [|discriminate].
  destruct (_ && _); [discriminate|]. intros [= <-].
  pose proof (digits_bound base _ Hb 0 0 false cnt z ltac:(lia) Ed) as H.
  assert (base ^ Z.of_nat (String.length (String c r))
          <= base ^ Z.of_nat (String.length s))
    by (apply Z.pow_le_mono_r; lia).
  lia.
Qed.

Lemma drop2_length (s : string) :
  (String.length (Py.drop2 s) <= String.length s)%nat.
Proof. destruct s as [|a [|b r]]; cbn; lia. Qed.

Lemma pow_16_mono (b : Z) (n m : nat) :
  2 <= b <= 16 -> (n <= m)%nat -> b ^ Z.of_nat n <= 16 ^ Z.of_nat m.
Proof.
  intros Hb Hnm.
  transitivity (16 ^ Z.of_nat n).
  - apply Z.pow_le_mono_l. lia.
  - apply Z.pow_le_mono_r; lia.
Qed.

Lemma magnitude_bound (s : string) (v : Z) :
  Py.magnitude 0 s = Py.Value v -> 0 <= v < 16 ^ Z.of_nat (String.length s).
Proof.
  unfold Py.magnitude. cbn [Z.eqb].
  pose proof (drop2_length s) as Hd.
  assert (Hpos : 0 < 16 ^ Z.of_nat (String.length s))
    by (apply Z.pow_pos_nonneg; lia).
  destruct (Py.has_prefix "X" s).
  { intros H. apply after_prefix_bound in H; [|lia].
    pose proof (pow_16_mono 16 _ _ ltac:(lia) Hd). lia. }
  destruct (Py.has_prefix "O" s).
  { intros H. apply after_prefix_bound in H; [|lia].
    pose proof (pow_16_mono 8 _ _ ltac:(lia) Hd). lia. }
  destruct (Py.has_prefix "B" s).
  { intros H. apply after_prefix_bound in H; [|lia].
    pose proof (pow_16_mono 2 _ _ ltac:(lia) Hd). lia. }
  destruct (Py.startswith "0" s).
  { destruct (Py.after_prefix 10 false s) as [[| |]| |]; try discriminate.
    intros [= <-]. lia. }
  intros H. apply after_prefix_bound in H; [|lia].
  pose proof (pow_16_mono 10 _ _ ltac:(lia) (Nat.le_refl (String.length s))).
  lia.
Qed.

Lemma signed_bound (s : string) (v : Z) :
  Py.signed 0 s = Py.Value v -> Z.abs v < 16 ^ Z.of_nat (String.length s).
Proof.
  unfold Py.signed. destruct s as [|c r]; [discriminate|].
  assert (Hr : 16 ^ Z.of_nat (String.length r)
               <= 16 ^ Z.of_nat (String.length (String c r)))
    by (apply Z.pow_le_mono_r; cbn [String.length]; lia).
  destruct (Ascii.eqb c "+").
  { intros H. apply magnitude_bound in H. lia. }
  destruct (Ascii.eqb c "-").
  { destruct (Py.magnitude 0 r) as [z| |] eqn:E; try discriminate.
    intros [= <-]. apply magnitude_bound in E. lia. }
  intros H. apply magnitude_bound in H. lia.
Qed.

Lemma rstrip_by_length (p : ascii -> bool) (s : string) :
  (String.length (Py.rstrip_by p s) <= String.length s)%nat.
Proof.
  induction s as [|c r IH]; [reflexivity|]. cbn [Py.rstrip_by].
  destruct (p c && Py.is_empty (Py.rstrip_by p r)); cbn [String.length]; lia.
Qed.

Lemma lstrip_by_length (p : ascii -> bool) (s : string) :
  (String.length (Py.lstrip_by p s) <= String.length s)%nat.
Proof.
  induction s as [|c r IH]; [reflexivity|]. cbn [Py.lstrip_by].
  destruct (p c); cbn [String.length]; lia.
Qed.

Lemma lstrip_length (s : string) :
  (String.length (Py.lstrip s) <= String.length s)%nat.
Proof.
  induction s as [|c r IH]; [reflexivity|]. cbn [Py.lstrip].
  destruct (Py.isspace c); cbn [String.length]; lia.
Qed.

Lemma strip_length (s : string) :
  (String.length (Py.strip s) <= String.length s)%nat.
Proof.
  unfold Py.strip, Py.rstrip.
  pose proof (rstrip_by_length Py.isspace (Py.lstrip s)).
  pose proof (lstrip_length s). lia.
Qed.

(** A literal of [n] characters that [int(s, 0)] reads is below 16 ^ n in
    absolute value. *)
Lemma int_bound (s : string) (v : Z) :
  Py.int 0 s = inl v -> Z.abs v < 16 ^ Z.of_nat (String.length s).
Proof.
  unfold Py.int.
  destruct (Py.signed 0 _) as [z| |] eqn:E; try discriminate.
  intros [= <-]. apply signed_bound in E.
  pose proof (rstrip_by_length Py.is_c_space (Py.lstrip_by Py.is_c_space s)).
  pose proof (lstrip_by_length Py.is_c_space s).
  assert (16 ^ Z.of_nat (String.length
                           (Py.rstrip_by Py.is_c_space
                              (Py.lstrip_by Py.is_c_space s)))
          <= 16 ^ Z.of_nat (String.length s))
    by (apply Z.pow_le_mono_r; lia).
  lia.
Qed.

Lemma sixteen_pow_below_limit : 16 ^ 3570 < 10 ^ Py.max_str_digits.
Proof. apply Z.ltb_lt. vm_compute. reflexivity. Qed.

End Literal_size.

Section Stage1_no_raise.

Import Stage1.

Lemma append_length (a b : string) :
  String.length (a +:+ b) = (String.length a + String.length b)%nat.
Proof.
  induction a as [|c a IH]; [reflexivity|].
  rewrite append_cons. cbn [String.length]. now rewrite IH.
Qed.

(** A word is no longer than the text it is cut from. *)
Lemma split_from_length (s : string) :
  forall (cur tok : string),
    In tok (Py.split_from cur s) ->
    (String.length tok <= String.length cur + String.length s)%nat.
Proof.
  induction s as [|c r IH]; intros cur tok H.
  - cbn in H. destruct (Py.is_empty cur); [destruct H|].
    destruct H as [<-|[]]. cbn. lia.
  - cbn [Py.split_from] in H. cbn [String.length].
    destruct (Py.isspace c).
    + destruct (Py.is_empty cur).
      * apply IH in H. cbn in H. lia.
      * destruct H as [<-|H]; [lia|]. apply IH in H. cbn in H. lia.
    + apply IH in H. rewrite append_length in H. cbn in H. lia.
Qed.

Lemma split_length (s tok : string) :
  In tok (Py.split s) -> (String.length tok <= String.length s)%nat.
Proof. intros H. apply split_from_length in H. cbn in H. lia. Qed.

Lemma before_length (c : ascii) (s : string) :
  (String.length (Py.before c s) <= String.length s)%nat.
Proof.
  induction s as [|d r IH]; [reflexivity|]. cbn [Py.before].
  destruct (Ascii.eqb c d); cbn [String.length]; lia.
Qed.

Lemma clean_length (o : string) :
  (String.length (clean o) <= String.length o)%nat.
Proof.
  unfold clean, Py.rstrip_comma.
  pose proof (strip_length (Py.rstrip_by (Ascii.eqb ",") o)).
  pose proof (rstrip_by_length (Ascii.eqb ",") o). lia.
Qed.

Lemma logical_length (l : string) :
  (String.length (logical l) <= String.length l)%nat.
Proof.
  unfold logical. rewrite stage1_strip_comment_before.
  pose proof (strip_length (Py.before ";" l)).
  pose proof (before_length ";" l). lia.
Qed.

(** A short operand raises nothing: the value of its literal has fewer
    decimal digits than the limit. *)
Lemma operand_step_returns (st : Assembler) (n : nat) (o : string) :
  (String.length o <= 3570)%nat -> raised (operand_step st n o) = None.
Proof.
  intros Hlen. unfold operand_step. fold (clean o).
  destruct (labels st !! _); [reflexivity|].
  destruct (Py.assoc _ registers); [reflexivity|].
  destruct (is_valid_number _) eqn:E; [|reflexivity].
  destruct (is_valid_number_int _ E) as [z Hz]. rewrite Hz.
  destruct (255 <? z); [|reflexivity].
  apply int_bound in Hz. pose proof (clean_length o) as Hc.
  assert (16 ^ Z.of_nat (String.length (clean o)) <= 16 ^ 3570)
    by (apply Z.pow_le_mono_r; lia).
  pose proof sixteen_pow_below_limit.
  unfold Py.str_int.
  destruct (Z.leb_spec (10 ^ Py.max_str_digits) (Z.abs z)); [lia|reflexivity].
Qed.

Lemma for_operands_returns (ops : list string) :
  Forall (fun o => (String.length o <= 3570)%nat) ops ->
  forall (st : Assembler) (n : nat), raised (for_operands st n ops) = None.
Proof.
  induction 1 as [|o rest Ho _ IH]; intros st n; [reflexivity|].
  cbn [for_operands]. pose proof (operand_step_returns st n o Ho) as H.
  destruct (operand_step st n o) as [st1|b st1|e st1];
    [apply IH|reflexivity|discriminate H].
Qed.

Lemma second_pass_line_returns (st : Assembler) (n : nat) (l : string) :
  (String.length l <= 3570)%nat -> raised (second_pass_line st n l) = None.
Proof.
  intros Hlen. unfold second_pass_line. fold (logical l).
  destruct (Py.is_empty (logical l)) eqn:E; [reflexivity|].
  cbn [orb]. destruct (Py.endswith _ _); [reflexivity|].
  pose proof (split_strip_nonempty _ E) as Hne. fold (logical l) in Hne.
  pose proof (split_length (logical l)) as Htok.
  destruct (Py.split (logical l)) as [|p0 ops]; [now destruct Hne|].
  destruct (Py.assoc _ commands); [|reflexivity].
  apply for_operands_returns. apply Forall_forall. intros o Ho.
  apply list_elem_of_In in Ho.
  pose proof (Htok o (or_intror Ho)). pose proof (logical_length l). lia.
Qed.

Lemma for_lines_returns (body : Assembler -> nat -> string -> control)
    (lines : list string) :
  (forall st n l, In l lines -> raised (body st n l) = None) ->
  forall (st : Assembler) (n : nat), raised (for_lines body st n lines) = None.
Proof.
  induction lines as [|l rest IH]; intros Hbody st n; [reflexivity|].
  cbn [for_lines]. pose proof (Hbody st n l (or_introl eq_refl)) as H.
  destruct (body st n l) as [st1|b st1|e st1];
    [|reflexivity|discriminate H].
  apply IH. intros st' n' l' Hl. apply Hbody. now right.
Qed.

Lemma first_pass_line_returns (st : Assembler) (n : nat) (l : string) :
  raised (first_pass_line st n l) = None.
Proof.
  pose proof (first_pass_line_ok st n l) as H.
  destruct (first_pass_line st n l) as [st1|[|] st1|e st1];
    try reflexivity. destruct H.
Qed.

End Stage1_no_raise.

(** X15.  When no line of the source is longer than 3570 characters, the
    stage-1 [assemble] returns: the value of a literal of that length is
    below 16 ^ 3570, which has fewer than 4300 decimal digits, so that the
    warning can always be formatted.  It returns True with the error list
    as it found it, or False with exactly one more error, which names a
    line. *)
Theorem assemble_returns_on_short_lines
    (st : Stage1.Assembler) (src : string) :
  Forall (fun l => (String.length l <= 3570)%nat) (Py.split_on Py.LF src) ->
  Stage1.returns_with_one_error_or_none
    (Stage1.errors st) (Stage1.assemble st src).
Proof.
  intros Hshort.
  assert (Hr : Stage1.raised (Stage1.assemble st src) = None).
  { unfold Stage1.assemble.
    set (ls := Py.split_on Py.LF src) in *.
    pose proof (for_lines_returns _ ls
                  (fun st n l _ => first_pass_line_returns st n l)
                  (Stage1.set_instructions [] st) 1%nat) as H1.
    fold (Stage1.first_pass (Stage1.set_instructions [] st) ls) in H1.
    destruct (Stage1.first_pass (Stage1.set_instructions [] st) ls)
      as [sa|[|] sa|e sa]; try exact H1; try reflexivity.
    assert (H2 : Stage1.raised
                   (Stage1.second_pass (Stage1.set_instructions [] sa) ls)
                 = None).
    { unfold Stage1.second_pass. apply for_lines_returns.
      intros st' n l Hl. apply second_pass_line_returns.
      apply list_elem_of_In in Hl.
      exact (proj1 (Forall_forall _ _) Hshort l Hl). }
    destruct (Stage1.second_pass (Stage1.set_instructions [] sa) ls)
      as [sb|[|] sb|e sb]; try exact H2; reflexivity. }
  pose proof (assemble_outcome_aux st src) as H.
  destruct (Stage1.assemble st src) as [s1|[|] s1|e s1];
    try exact H. discriminate Hr.
Qed.

Lemma assemble_returns_on_short_lines_witness :
  Stage1.returns_with_one_error_or_none
    (Stage1.errors Stage1.init)
    (Stage1.assemble Stage1.init
       (Py.join nl ["LOAD A, 0x1ff"; "L:"; "JMP L"; "ADD A, x"])).
Proof.
  apply assemble_returns_on_short_lines.
  vm_compute. repeat constructor.
Defined.
